(** * Wallet Identity Card: the payment gate and the wallet aggregation

    A shallow embedding of the Cloudflare Worker of whoabuddy/wallet-id-card.
    The repository holds two texts of [src/index.ts]:

    - version 2.0.0, with its own payment verification ([verifyPayment]) and
      an OpenAI image generator, embedded in [Module V2];
    - version 1.0.0, the text bundled with [dev.ts], which forwards the
      payment requirement of the stx402 image endpoint, embedded in
      [Module V1].

    The four chain-data lookups, [buildImagePrompt] and the routes
    [/data/:address] and [/prompt/:address] have the same text in both and
    are embedded once.

    Numbers are IEEE 754 doubles (primitive floats).  The conversions that
    JavaScript makes implicitly, in a template literal, in [parseInt], in
    the argument of [fetch] and in a response header, are written out, and
    they can throw.  A handler is a function of the world (how each
    upstream call settles, the clock, the random source) that returns its
    response together with the upstream calls it started, in order. *)

From Stdlib Require Import String Ascii List ZArith Lia Bool Arith DecimalString Floats.
Import ListNotations.
Local Open Scope list_scope.
Local Open Scope string_scope.
Set Warnings "-register-all".

(** ** JavaScript values and the built-ins the worker uses *)

Module JS.

(** A JavaScript number: an IEEE 754 double, with the one NaN. *)
Definition JsNum : Type := float.

Definition NaN : JsNum := nan.

(** The number nearest to an integer, ties to even: how a decimal integer
    literal, and the digits [parseInt] has read, become a number. *)
Definition Z_to_num (z : Z) : JsNum := SF2Prim (binary_normalize prec emax z 0 false).

(** What [res.json()] can return, plus [undefined] (the value of a missing
    property).  [JObj] lists the own properties in the order
    [Object.entries] enumerates them.  A string is a sequence of code units,
    here those below 256. *)
Inductive JsVal : Type :=
| JUndef
| JNull
| JBool (b : bool)
| JNum (n : JsNum)
| JStr (s : string)
| JArr (items : list JsVal)
| JObj (props : list (string * JsVal)).

(** An exception as a [catch] clause sees it. *)
Inductive Exn : Type :=
| Thrown (text : string)
    (* raised by the platform ([fetch], [res.json()], [BigInt], a
       conversion); [text] is what a template literal renders it to *)
| NullishRead (of_null : bool) (prop : string).
    (* TypeError: a property was read from [null] (true) or [undefined] *)

(** A computation that may throw. *)
Definition Throws (A : Type) : Type := Exn + A.

Definition ok {A} (a : A) : Throws A := inr a.
Definition throw {A} (e : Exn) : Throws A := inl e.

Definition tbind {A B} (m : Throws A) (k : A -> Throws B) : Throws B :=
  match m with
  | inl e => inl e
  | inr a => k a
  end.

(** [try { body } catch { return dflt }] *)
Definition try_catch {A} (body : Throws A) (handler : Exn -> A) : A :=
  match body with
  | inl e => handler e
  | inr a => a
  end.

Section Loops.
Context {A B : Type}.

(** [xs.map(f)] where [f] may throw: the first exception ends the loop. *)
Fixpoint map_throws (f : A -> Throws B) (xs : list A) : Throws (list B) :=
  match xs with
  | [] => ok []
  | x :: rest =>
      tbind (f x) (fun y => tbind (map_throws f rest) (fun ys => ok (y :: ys)))
  end.

(** [xs.reduce(f, init)] where [f] may throw. *)
Fixpoint reduce_throws (f : B -> A -> Throws B) (xs : list A) (init : B)
  : Throws B :=
  match xs with
  | [] => ok init
  | x :: rest => tbind (f init x) (fun acc => reduce_throws f rest acc)
  end.

End Loops.

(** Built-ins whose results depend on the decimal printing of doubles, on
    rounding or on the calendar, and are left to the platform. *)
Record Platform : Type := {
  BigInt : JsVal -> Throws Z;       (* [BigInt(v)] *)
  microToFixed2 : Z -> string;      (* [(Number(b) / 1_000_000).toFixed(2)] *)
  toISOString : Z -> string;        (* [new Date(ms).toISOString()] *)
  Number_toString : JsNum -> string (* [String(n)] for a number [n] *)
}.

Definition dquote : string := String (ascii_of_nat 34) EmptyString.
Definition squote : string := String (ascii_of_nat 39) EmptyString.
Definition newline : string := String (ascii_of_nat 10) EmptyString.

(** *** Strings *)

(** [s.startsWith(p)] *)
Definition startsWith (p s : string) : bool := String.prefix p s.

(** [s.slice(0, n)] *)
Fixpoint take (n : nat) (s : string) : string :=
  match n, s with
  | S n', String c r => String c (take n' r)
  | _, _ => EmptyString
  end.

Fixpoint drop (n : nat) (s : string) : string :=
  match n, s with
  | S n', String _ r => drop n' r
  | _, _ => s
  end.

(** [s.slice(-n)] for a positive literal [n] *)
Definition slice_last (n : nat) (s : string) : string :=
  drop (String.length s - n) s.

(** [xs.join(sep)] on an array of strings *)
Fixpoint join (sep : string) (xs : list string) : string :=
  match xs with
  | [] => EmptyString
  | [x] => x
  | x :: rest => x ++ sep ++ join sep rest
  end.

(** [s.split(sep)] for a non-empty literal [sep]: the pieces between the
    leftmost, non-overlapping occurrences of [sep].  [skip] counts the
    characters of a matched separator still to be passed over; [cur] is the
    current piece, reversed. *)
Fixpoint rev_string (acc s : string) : string :=
  match s with
  | EmptyString => acc
  | String c r => rev_string (String c acc) r
  end.

Fixpoint split_go (sep : string) (skip : nat) (cur : string) (s : string)
  : list string :=
  match s with
  | EmptyString => [rev_string EmptyString cur]
  | String c r =>
      match skip with
      | S k => split_go sep k cur r
      | O =>
          if String.prefix sep s
          then rev_string EmptyString cur
                 :: split_go sep (String.length sep - 1) EmptyString r
          else split_go sep 0 (String c cur) r
      end
  end.

Definition split (sep s : string) : list string := split_go sep 0 EmptyString s.

(** *** Numbers *)

(** [a + b] on numbers *)
Definition num_add (a b : JsNum) : JsNum := (a + b)%float.

(** [n !== n] *)
Definition is_NaN (n : JsNum) : bool := negb (PrimFloat.eqb n n).

Definition is_digit (c : ascii) : bool :=
  (48 <=? nat_of_ascii c)%nat && (nat_of_ascii c <=? 57)%nat.

Definition digit_value (c : ascii) : Z := Z.of_nat (nat_of_ascii c - 48).

Definition is_space (c : ascii) : bool :=
  let n := nat_of_ascii c in
  ((9 <=? n)%nat && (n <=? 13)%nat) || (n =? 32)%nat || (n =? 160)%nat.

Fixpoint skip_spaces (s : string) : string :=
  match s with
  | String c r => if is_space c then skip_spaces r else s
  | EmptyString => s
  end.

(** The longest prefix of decimal digits, as an integer; [acc] is [None]
    until a digit has been read. *)
Fixpoint read_digits (acc : option Z) (s : string) : option Z :=
  match s with
  | String c r =>
      if is_digit c
      then read_digits
             (Some (10 * match acc with Some a => a | None => 0 end
                    + digit_value c)%Z) r
      else acc
  | EmptyString => acc
  end.

(** [parseInt(s, 10)] on a string: the digits read, rounded to a number
    (an engine may round a run of more than 20 digits less exactly; V8
    rounds it correctly). *)
Definition parseInt10_string (s : string) : JsNum :=
  let s1 := skip_spaces s in
  let '(neg, s2) :=
    match s1 with
    | String "-" r => (true, r)
    | String "+" r => (false, r)
    | _ => (false, s1)
    end in
  match read_digits None s2 with
  | None => NaN
  | Some z => if neg then (- Z_to_num z)%float else Z_to_num z
  end.

(** *** Values *)

(** Truthiness, as [||], [!] and [if] test it. *)
Definition truthy (v : JsVal) : bool :=
  match v with
  | JUndef | JNull => false
  | JBool b => b
  | JNum n => negb (PrimFloat.eqb n 0) && negb (is_NaN n)
  | JStr s => negb (String.eqb s EmptyString)
  | JArr _ | JObj _ => true
  end.

(** [a || b] *)
Definition or_else (a b : JsVal) : JsVal := if truthy a then a else b.

Fixpoint lookup (k : string) (props : list (string * JsVal)) : JsVal :=
  match props with
  | [] => JUndef
  | (k', v) :: rest => if String.eqb k k' then v else lookup k rest
  end.

(** [k in obj], for own properties *)
Fixpoint has_key (k : string) (props : list (string * JsVal)) : bool :=
  match props with
  | [] => false
  | (k', _) :: rest => String.eqb k k' || has_key k rest
  end.

Definition cannot_convert : Exn :=
  Thrown "TypeError: Cannot convert object to primitive value".

(** [`${v}`], the conversion to a string.  An object parsed from JSON is
    printed by the inherited [toString] unless it has a property of that
    name of its own: such a property is never a function, the inherited
    [valueOf] returns the object itself, and the conversion throws.  An
    array joins the conversions of its items. *)
Fixpoint to_string (P : Platform) (v : JsVal) : Throws string :=
  match v with
  | JUndef => ok "undefined"
  | JNull => ok "null"
  | JBool true => ok "true"
  | JBool false => ok "false"
  | JNum n => ok (Number_toString P n)
  | JStr s => ok s
  | JArr items =>
      tbind (map_throws (fun x => match x with
                                  | JUndef | JNull => ok EmptyString
                                  | _ => to_string P x
                                  end) items)
            (fun pieces => ok (join "," pieces))
  | JObj props =>
      if has_key "toString" props then throw cannot_convert
      else ok "[object Object]"
  end.

(** [parseInt(v, 10)]: the argument is converted to a string first. *)
Definition parseInt10 (P : Platform) (v : JsVal) : Throws JsNum :=
  tbind (to_string P v) (fun s => ok (parseInt10_string s)).

(** [v.k] for the property names this program reads, none of which is a
    built-in property of a string, number, boolean or array: only an object
    can have them, and reading from [null] or [undefined] throws. *)
Definition get (v : JsVal) (k : string) : Throws JsVal :=
  match v with
  | JUndef => throw (NullishRead false k)
  | JNull => throw (NullishRead true k)
  | JObj props => ok (lookup k props)
  | _ => ok JUndef
  end.

(** [v?.k] *)
Definition opt_get (v : JsVal) (k : string) : JsVal :=
  match v with
  | JObj props => lookup k props
  | _ => JUndef
  end.

Definition nat_key (i : nat) : string := NilZero.string_of_uint (Nat.to_uint i).

(** [v[0]] on a value that is neither [null] nor [undefined] *)
Definition index0 (v : JsVal) : JsVal :=
  match v with
  | JArr (x :: _) => x
  | JStr (String c _) => JStr (String c EmptyString)
  | JObj props => lookup "0" props
  | _ => JUndef
  end.

(** [v?.[0]] *)
Definition opt_index0 (v : JsVal) : JsVal :=
  match v with
  | JUndef | JNull => JUndef
  | _ => index0 v
  end.

(** [v === 'literal'] *)
Definition is_string (lit : string) (v : JsVal) : bool :=
  match v with
  | JStr s => String.eqb s lit
  | _ => false
  end.

Fixpoint indexed {A} (i : nat) (xs : list A) : list (string * A) :=
  match xs with
  | [] => []
  | x :: rest => (nat_key i, x) :: indexed (S i) rest
  end.

Fixpoint chars (s : string) : list JsVal :=
  match s with
  | EmptyString => []
  | String c r => JStr (String c EmptyString) :: chars r
  end.

(** [Object.entries(v)] *)
Definition entries (v : JsVal) : Throws (list (string * JsVal)) :=
  match v with
  | JUndef | JNull => throw (Thrown "TypeError: Cannot convert undefined or null to object")
  | JObj props => ok props
  | JArr items => ok (indexed 0 items)
  | JStr s => ok (indexed 0 (chars s))
  | JBool _ | JNum _ => ok []
  end.

(** The rendering of an exception in a template literal.  The wording of a
    TypeError is the engine's (V8 here). *)
Definition exn_text (e : Exn) : string :=
  match e with
  | Thrown text => text
  | NullishRead of_null prop =>
      "TypeError: Cannot read properties of "
        ++ (if of_null then "null" else "undefined")
        ++ " (reading " ++ squote ++ prop ++ squote ++ ")"
  end.

End JS.

(** ** The outside world: upstream HTTP, randomness, the clock *)

Module Http.
Import JS.

(** An upstream request, as [fetch] receives it. *)
Inductive Call : Type :=
| Get (url : string)
| Post (url : string) (headers : list (string * string)) (body : JsVal).

Record HttpResponse : Type := {
  status : nat;
  json : Throws JsVal;                    (* [await res.json()] *)
  arrayBuffer : Throws (list Byte.byte)   (* [await res.arrayBuffer()] *)
}.

(** [res.ok] *)
Definition res_ok (res : HttpResponse) : bool :=
  (200 <=? status res)%nat && (status res <=? 299)%nat.

(** How a [fetch] promise settles. *)
Inductive FetchResult : Type :=
| Rejected (e : Exn)
| Fulfilled (res : HttpResponse).

(** [await fetch(...)] inside a [try] *)
Definition await (r : FetchResult) : Throws HttpResponse :=
  match r with
  | Rejected e => throw e
  | Fulfilled res => ok res
  end.

(** Everything a request handler reads from outside.  [fetch n c] is how the
    [n]-th upstream call of the request settles when it is the call [c]: two
    calls to one URL are two lookups and may settle differently. *)
Record World : Type := {
  fetch : nat -> Call -> FetchResult;
  randomUUID : string;              (* [crypto.randomUUID()] *)
  now : Z                           (* [Date.now()], in milliseconds *)
}.

(** A handler: it reads the world and records, in order, the upstream calls
    it starts. *)
Definition Eff (A : Type) : Type := World -> list Call -> A * list Call.

Definition ret {A} (a : A) : Eff A := fun _ log => (a, log).

Definition bind {A B} (m : Eff A) (k : A -> Eff B) : Eff B :=
  fun w log => let '(a, log') := m w log in k a w log'.

Definition do_fetch (c : Call) : Eff FetchResult :=
  fun w log => (fetch w (List.length log) c, (log ++ [c])%list).

Definition ask {A} (f : World -> A) : Eff A := fun w log => (f w, log).

(** One request, from an empty call log. *)
Definition run {A} (m : Eff A) (w : World) : A * list Call := m w [].

(** What the worker answers. *)
Inductive Response : Type :=
| Json (code : nat) (body : JsVal)
    (* [c.json(body, code)] *)
| Binary (body : list Byte.byte) (headers : list (string * string))
    (* [new Response(image, { headers })], status 200 *)
| Unhandled (e : Exn).
    (* the handler itself rejected; the framework answers for it *)

(** *** Response headers

    A header value is stripped of leading and trailing tabs, spaces and
    line breaks and must then hold no NUL and no line break. *)
Definition is_http_space (c : ascii) : bool :=
  let n := nat_of_ascii c in
  (n =? 9)%nat || (n =? 10)%nat || (n =? 13)%nat || (n =? 32)%nat.

Fixpoint strip_leading (s : string) : string :=
  match s with
  | String c r => if is_http_space c then strip_leading r else s
  | EmptyString => s
  end.

Definition normalize_value (s : string) : string :=
  rev_string EmptyString
    (strip_leading (rev_string EmptyString (strip_leading s))).

Fixpoint no_break (s : string) : bool :=
  match s with
  | EmptyString => true
  | String c r =>
      let n := nat_of_ascii c in
      negb ((n =? 0)%nat || (n =? 10)%nat || (n =? 13)%nat) && no_break r
  end.

Definition invalid_header_value : Exn := Thrown "TypeError: Invalid header value.".

(** One entry of a [headers] literal: the value is converted to a string,
    normalized and checked. *)
Definition header_entry (P : Platform) (h : string * JsVal)
  : Throws (string * string) :=
  let '(name, value) := h in
  tbind (to_string P value)
        (fun text =>
           let v := normalize_value text in
           if no_break v then ok (name, v) else throw invalid_header_value).

(** The headers of [new Response(body, { headers })], in the order of the
    literal. *)
Definition sent_headers (P : Platform) (headers : list (string * JsVal))
  : Throws (list (string * string)) :=
  map_throws (header_entry P) headers.

(** [new Response(image, { headers })]: it throws when a header cannot be
    set. *)
Definition new_Response (P : Platform) (image : list Byte.byte)
           (headers : list (string * JsVal)) : Response :=
  match sent_headers P headers with
  | inl e => Unhandled e
  | inr sent => Binary image sent
  end.

End Http.

Declare Scope eff_scope.
Delimit Scope eff_scope with eff.
Notation "x <- m ;; k" := (Http.bind m (fun x => k))
  (at level 61, m at next level, right associativity) : eff_scope.
Declare Scope throws_scope.
Delimit Scope throws_scope with throws.
Notation "x <~ m ;; k" := (JS.tbind m (fun x => k))
  (at level 61, m at next level, right associativity) : throws_scope.

(** ** The chain-data lookups, the wallet record and the prompt
    (same text in both versions of [src/index.ts]) *)

Module Wallet.
Import JS Http.

Definition HIRO_API : string := "https://api.hiro.so".

Record FtBalance : Type := {
  ft_symbol : string;
  ft_balance : string;
  ft_name : string
}.

Record Nft : Type := {
  nft_name : string;
  nft_collection : string
}.

(** [interface WalletData].  [bnsName] is declared [string | null]; at run
    time it is whatever [getBnsName] returns. *)
Record WalletData : Type := {
  address : string;
  bnsName : JsVal;
  stxBalance : string;
  ftBalances : list FtBalance;
  nftCount : JsNum;
  topNfts : list Nft
}.

Record NftHoldings : Type := {
  count : JsNum;
  top : list Nft
}.

(** [/^S[PM][A-Z0-9]{38,40}$/] *)
Definition is_upper_alnum (c : ascii) : bool :=
  let n := nat_of_ascii c in
  ((65 <=? n)%nat && (n <=? 90)%nat) || ((48 <=? n)%nat && (n <=? 57)%nat).

Fixpoint all_chars (p : ascii -> bool) (s : string) : bool :=
  match s with
  | EmptyString => true
  | String c r => p c && all_chars p r
  end.

Definition valid_address (address : string) : bool :=
  match address with
  | String "S" (String c rest) =>
      (Ascii.eqb c "P" || Ascii.eqb c "M")
      && all_chars is_upper_alnum rest
      && (38 <=? String.length rest)%nat && (String.length rest <=? 40)%nat
  | _ => false
  end.

(** [xs[i] || dflt] on an array of strings *)
Definition str_or (x : option string) (dflt : string) : string :=
  match x with
  | Some s => if String.eqb s EmptyString then dflt else s
  | None => dflt
  end.

Section Lookups.
Variable P : Platform.

(** The body of [getBnsName] once its [fetch] has settled as [r]. *)
Definition getBnsName_of (r : FetchResult) : JsVal :=
  try_catch
    (res <~ await r ;;
     if negb (res_ok res) then ok JNull
     else
       data <~ json res ;;
       names <~ get data "names" ;;
       ok (or_else (opt_index0 names) JNull))%throws
    (fun _ => JNull).

Definition getStxBalance_of (r : FetchResult) : string :=
  try_catch
    (res <~ await r ;;
     if negb (res_ok res) then ok "0"
     else
       data <~ json res ;;
       stx <~ get data "stx" ;;
       balance <~ BigInt P (or_else (opt_get stx "balance") (JStr "0")) ;;
       ok (microToFixed2 P balance))%throws
    (fun _ => "0").

(** The callback of [.map] in [getFtBalances]. *)
Definition ft_entry (e : string * JsVal) : Throws FtBalance :=
  let '(key, ft) := e in
  let parts := split "::" key in
  let name := str_or (nth_error parts 1) "Token" in
  let symbol := str_or (option_map (take 6) (nth_error parts 1)) "TKN" in
  (b <~ get ft "balance" ;;
   balance <~ BigInt P (or_else b (JStr "0")) ;;
   ok {| ft_symbol := symbol;
         ft_balance := microToFixed2 P balance;
         ft_name := name |})%throws.

Definition getFtBalances_of (r : FetchResult) : list FtBalance :=
  try_catch
    (res <~ await r ;;
     if negb (res_ok res) then ok []
     else
       data <~ json res ;;
       ft0 <~ get data "fungible_tokens" ;;
       es <~ entries (or_else ft0 (JObj [])) ;;
       map_throws ft_entry (firstn 5 es))%throws
    (fun _ => []).

(** The callback of [.reduce] in [getNftHoldings]. *)
Definition add_count (sum : JsNum) (e : string * JsVal) : Throws JsNum :=
  let '(_, nft) := e in
  (c <~ get nft "count" ;;
   n <~ parseInt10 P (or_else c (JStr "0")) ;;
   ok (num_add sum n))%throws.

(** The callback of [.map] in [getNftHoldings]. *)
Definition nft_entry (e : string * JsVal) : Nft :=
  let '(key, _) := e in
  let parts := split "::" key in
  {| nft_collection :=
       str_or (match nth_error parts 0 with
               | Some p0 => nth_error (split "." p0) 1
               | None => None
               end) "Unknown";
     nft_name := str_or (nth_error parts 1) "NFT" |}.

Definition getNftHoldings_of (r : FetchResult) : NftHoldings :=
  try_catch
    (res <~ await r ;;
     if negb (res_ok res) then ok {| count := 0%float; top := [] |}
     else
       data <~ json res ;;
       n0 <~ get data "non_fungible_tokens" ;;
       es <~ entries (or_else n0 (JObj [])) ;;
       total <~ reduce_throws add_count es 0%float ;;
       ok {| count := total; top := map nft_entry (firstn 3 es) |})%throws
    (fun _ => {| count := 0%float; top := [] |}).

Definition bns_url (address : string) : string :=
  HIRO_API ++ "/v1/addresses/stacks/" ++ address.

Definition balances_url (address : string) : string :=
  HIRO_API ++ "/extended/v1/address/" ++ address ++ "/balances".

Definition getBnsName (address : string) : Eff JsVal :=
  (r <- do_fetch (Get (bns_url address)) ;; ret (getBnsName_of r))%eff.

Definition getStxBalance (address : string) : Eff string :=
  (r <- do_fetch (Get (balances_url address)) ;; ret (getStxBalance_of r))%eff.

Definition getFtBalances (address : string) : Eff (list FtBalance) :=
  (r <- do_fetch (Get (balances_url address)) ;; ret (getFtBalances_of r))%eff.

Definition getNftHoldings (address : string) : Eff NftHoldings :=
  (r <- do_fetch (Get (balances_url address)) ;; ret (getNftHoldings_of r))%eff.

(** The [Promise.all] block and the [walletData] literal that every route
    repeats.  The four lookups are started in this order; none of them can
    reject, so [Promise.all] always fulfils with the four results. *)
Definition fetchWalletData (address : string) : Eff WalletData :=
  (bns <- getBnsName address ;;
   stx <- getStxBalance address ;;
   fts <- getFtBalances address ;;
   nftData <- getNftHoldings address ;;
   ret {| address := address;
          bnsName := bns;
          stxBalance := stx;
          ftBalances := fts;
          nftCount := count nftData;
          topNfts := top nftData |})%eff.

End Lookups.

Definition prompt_head : string :=
  "Create a sleek digital identity card for a cryptocurrency wallet holder."
  ++ newline ++ newline
  ++ "Style: Modern cyberpunk aesthetic, dark background (#0a0a0f) with vibrant orange (#f7931a) and electric blue (#00d4ff) accent colors. Premium holographic effect."
  ++ newline ++ newline
  ++ "Layout: Horizontal card (16:9), like a premium membership card."
  ++ newline ++ newline
  ++ "Elements to include:" ++ newline.

Definition prompt_tail : string :=
  "- Abstract circuit/blockchain pattern in background" ++ newline
  ++ "- Subtle grid lines suggesting a digital ledger" ++ newline
  ++ "- Holographic shimmer strip on one edge" ++ newline
  ++ "- Small Stacks logo watermark" ++ newline ++ newline
  ++ "Typography: Clean sans-serif, high contrast white text on dark." ++ newline
  ++ "Overall feel: Exclusive crypto club membership, collectible, premium.".

(** The display name: [wallet.bnsName || address.slice(0, 8) + '...' + address.slice(-4)] *)
Definition display_name (wallet : WalletData) : JsVal :=
  or_else (bnsName wallet)
          (JStr (take 8 (address wallet) ++ "..." ++ slice_last 4 (address wallet))).

Definition token_badges (wallet : WalletData) : string :=
  if (0 <? List.length (ftBalances wallet))%nat
  then join ", " (map ft_name (ftBalances wallet))
  else "STX only".

(** [buildImagePrompt].  Its local [nfts] (the collections joined, or
    ['none']) is computed and never used; it is left out.  The template
    literal converts the display name to a string, which throws for an
    object that has a [toString] property of its own. *)
Definition buildImagePrompt (P : Platform) (wallet : WalletData) : Throws string :=
  let name := display_name wallet in
  let tokens := token_badges wallet in
  (shown <~ to_string P name ;;
   ok (prompt_head
       ++ "- Display name prominently: " ++ dquote ++ shown ++ dquote ++ newline
       ++ "- Balance display: " ++ dquote ++ stxBalance wallet ++ " STX" ++ dquote ++ newline
       ++ "- Token badges: " ++ tokens ++ newline
       ++ "- NFT count: " ++ dquote ++ Number_toString P (nftCount wallet)
       ++ " NFTs" ++ dquote ++ newline
       ++ prompt_tail))%throws.

(** The wallet record as the object handed to [c.json]. *)
Definition ft_json (t : FtBalance) : JsVal :=
  JObj [("name", JStr (ft_name t));
        ("symbol", JStr (ft_symbol t));
        ("balance", JStr (ft_balance t))].

Definition nft_json (n : Nft) : JsVal :=
  JObj [("collection", JStr (nft_collection n));
        ("name", JStr (nft_name n))].

Definition walletData_json (wallet : WalletData) : JsVal :=
  JObj [("address", JStr (address wallet));
        ("bnsName", bnsName wallet);
        ("stxBalance", JStr (stxBalance wallet));
        ("ftBalances", JArr (map ft_json (ftBalances wallet)));
        ("nftCount", JNum (nftCount wallet));
        ("topNfts", JArr (map nft_json (topNfts wallet)))].

Definition invalid_address_response : Response :=
  Json 400 (JObj [("error", JStr "Invalid Stacks address format")]).

Section Routes.
Variable P : Platform.

(** [app.get('/data/:address')] *)
Definition data (address : string) : Eff Response :=
  if negb (valid_address address) then ret invalid_address_response
  else
    (walletData <- fetchWalletData P address ;;
     ret (Json 200 (walletData_json walletData)))%eff.

(** [app.get('/prompt/:address')]; an exception of [buildImagePrompt] is
    not caught. *)
Definition prompt (address : string) : Eff Response :=
  if negb (valid_address address) then ret invalid_address_response
  else
    (walletData <- fetchWalletData P address ;;
     match buildImagePrompt P walletData with
     | inl e => ret (Unhandled e)
     | inr prompt =>
         ret (Json 200
                (JObj [("walletData", walletData_json walletData);
                       ("prompt", JStr prompt);
                       ("note", JStr "This prompt will be sent to AI image generation when you call /card/:address")]))
     end)%eff.

End Routes.

End Wallet.

(** ** Version 2.0.0: the worker verifies the payment itself *)

Module V2.
Import JS Http Wallet.

Record Bindings : Type := {
  PAYMENT_ADDRESS : string;
  OPENAI_API_KEY : option string
}.

(** [PAYMENT_CONTRACT] *)
Definition PAYMENT_CONTRACT_address : string := "SPP5ZMH9NQDFD2K5CEQZ6P02AP8YPWMQ75TJW20M".
Definition PAYMENT_CONTRACT_name : string := "simple-oracle".
Definition CARD_PRICE : JsNum := 1%float.

Definition expectedContract : string :=
  PAYMENT_CONTRACT_address ++ "." ++ PAYMENT_CONTRACT_name.

(** The result of [verifyPayment]: [{ valid, sender?, error? }]. *)
Record Verification : Type := {
  valid : bool;
  sender : JsVal;
  error : option string
}.

Definition invalid (reason : string) : Verification :=
  {| valid := false; sender := JUndef; error := Some reason |}.

Definition normalizeTxid (txid : string) : string :=
  if startsWith "0x" txid then txid else "0x" ++ txid.

Definition tx_url (txid : string) : string :=
  HIRO_API ++ "/extended/v1/tx/" ++ normalizeTxid txid.

Section Verifier.
Variable P : Platform.

(** The body of [verifyPayment] once its [fetch] has settled as [r]. *)
Definition verifyPayment_of (r : FetchResult) : Verification :=
  try_catch
    (response <~ await r ;;
     if negb (res_ok response) then ok (invalid "Transaction not found")
     else
       tx <~ json response ;;
       tx_status <~ get tx "tx_status" ;;
       if negb (is_string "success" tx_status)
       then
         shown <~ to_string P tx_status ;;
         ok (invalid ("Transaction status: " ++ shown))
       else
         tx_type <~ get tx "tx_type" ;;
         if negb (is_string "contract_call" tx_type)
         then ok (invalid "Not a contract call")
         else
           contract_call <~ get tx "contract_call" ;;
           if negb (is_string expectedContract (opt_get contract_call "contract_id"))
           then ok (invalid "Wrong contract")
           else
             sender_address <~ get tx "sender_address" ;;
             ok {| valid := true; sender := sender_address; error := None |})%throws
    (fun e => invalid ("Verification failed: " ++ exn_text e)).

Definition verifyPayment (txid : string) : Eff Verification :=
  (r <- do_fetch (Get (tx_url txid)) ;; ret (verifyPayment_of r))%eff.

End Verifier.

(** The result of [generateImage]: [{ success, imageUrl?, error? }]. *)
Record ImageResult : Type := {
  success : bool;
  imageUrl : JsVal;
  image_error : JsVal
}.

Definition image_failed (reason : JsVal) : ImageResult :=
  {| success := false; imageUrl := JUndef; image_error := reason |}.

Definition openai_url : string := "https://api.openai.com/v1/images/generations".

Definition openai_call (apiKey prompt : string) : Call :=
  Post openai_url
       [("Content-Type", "application/json");
        ("Authorization", ("Bearer " ++ apiKey)%string)]
       (JObj [("model", JStr "dall-e-3");
              ("prompt", JStr prompt);
              ("n", JNum 1%float);
              ("size", JStr "1792x1024");
              ("quality", JStr "standard")]).

(** [v[0]] where reading from [null] or [undefined] throws *)
Definition index0_strict (v : JsVal) : Throws JsVal :=
  match v with
  | JUndef => throw (NullishRead false "0")
  | JNull => throw (NullishRead true "0")
  | _ => ok (index0 v)
  end.

Definition generateImage_of (r : FetchResult) : ImageResult :=
  try_catch
    (response <~ await r ;;
     if negb (res_ok response)
     then
       err <~ json response ;;
       inner <~ get err "error" ;;
       ok (image_failed (or_else (opt_get inner "message")
                                 (JStr "Image generation failed")))
     else
       data <~ json response ;;
       items <~ get data "data" ;;
       first <~ index0_strict items ;;
       url <~ get first "url" ;;
       ok {| success := true; imageUrl := url; image_error := JUndef |})%throws
    (fun e => image_failed (JStr ("Image generation error: " ++ exn_text e))).

Definition generateImage (apiKey prompt : string) : Eff ImageResult :=
  if String.eqb apiKey EmptyString
  then ret (image_failed (JStr "Image generation not configured"))
  else (r <- do_fetch (openai_call apiKey prompt) ;; ret (generateImage_of r))%eff.

(** An optional string ([string | undefined]) as a value. *)
Definition opt_string (o : option string) : JsVal :=
  match o with
  | Some s => JStr s
  | None => JUndef
  end.

(** A request header as [c.req.header(name)] returns it. *)
Definition header_value (h : option string) : JsVal := opt_string h.

(** The string an optional string is once it has been found truthy, and the
    string [o || ''] in general. *)
Definition string_of (o : option string) : string :=
  match o with
  | Some s => s
  | None => EmptyString
  end.

Section Routes.
Variable P : Platform.

(** The 402 body of the route's own challenge. *)
Definition challenge (address nonce expiresAt : string) : JsVal :=
  JObj [("error", JStr "Payment Required");
        ("code", JStr "PAYMENT_REQUIRED");
        ("resource", JStr ("/card/" ++ address));
        ("payment",
         JObj [("contract", JStr expectedContract);
               ("function", JStr "call-with-stx");
               ("price", JNum CARD_PRICE);
               ("token", JStr "STX");
               ("recipient", JStr PAYMENT_CONTRACT_address);
               ("network", JStr "mainnet")]);
        ("instructions",
         JArr [JStr "1. Call the contract function with STX payment";
               JStr "2. Wait for transaction confirmation";
               JStr "3. Retry request with X-Payment header containing txid"]);
        ("nonce", JStr nonce);
        ("expiresAt", JStr expiresAt);
        ("description", JStr "Generate AI-powered wallet identity card")].

Definition generation_failed (details : JsVal) (walletData : WalletData)
           (prompt txid : string) : JsVal :=
  JObj [("error", JStr "Image generation failed");
        ("details", details);
        ("walletData", walletData_json walletData);
        ("prompt", JStr prompt);
        ("payment_received", JBool true);
        ("payment_txid", JStr txid)].

Definition image_fetch_failed (url : JsVal) (walletData : WalletData) : JsVal :=
  JObj [("error", JStr "Failed to fetch generated image");
        ("imageUrl", url);
        ("walletData", walletData_json walletData)].

(** The [headers] literal of the image response. *)
Definition image_headers (address : string) (bns : JsVal) : list (string * JsVal) :=
  [("Content-Type", JStr "image/png");
   ("Cache-Control", JStr "public, max-age=3600");
   ("X-Wallet-Address", JStr address);
   ("X-BNS-Name", or_else bns (JStr "none"));
   ("X-Payment-Verified", JStr "true")].

(** [app.get('/card/:address')]; [xPayment] is [c.req.header('X-Payment')].
    Past the guard [if (!paymentTxid)] the header is a non-empty string.
    Nothing is caught in the handler itself: an exception of
    [buildImagePrompt], of the download ([fetch] converts its argument to a
    string first), of [arrayBuffer] or of [new Response] leaves it. *)
Definition card (env : Bindings) (address : string) (xPayment : option string)
  : Eff Response :=
  if negb (valid_address address) then ret invalid_address_response
  else
    if negb (truthy (header_value xPayment))
    then
      (nonce <- ask randomUUID ;;
       t <- ask now ;;
       let expiresAt := toISOString P (t + 10 * 60 * 1000) in
       ret (Json 402 (challenge address nonce expiresAt)))%eff
    else
      let paymentTxid := string_of xPayment in
      (verification <- verifyPayment P paymentTxid ;;
       if negb (valid verification)
       then ret (Json 403
                   (JObj [("error", JStr "Payment verification failed");
                          ("details", opt_string (error verification))]))
       else
         walletData <- fetchWalletData P address ;;
         match buildImagePrompt P walletData with
         | inl e => ret (Unhandled e)
         | inr prompt =>
             imageResult <- generateImage (string_of (OPENAI_API_KEY env)) prompt ;;
             if negb (success imageResult)
             then ret (Json 500 (generation_failed (image_error imageResult)
                                                   walletData prompt paymentTxid))
             else
               match to_string P (imageUrl imageResult) with
               | inl e => ret (Unhandled e)
               | inr url =>
                   r <- do_fetch (Get url) ;;
                   match r with
                   | Rejected e => ret (Unhandled e)
                   | Fulfilled imageResponse =>
                       if negb (res_ok imageResponse)
                       then ret (Json 500 (image_fetch_failed
                                             (imageUrl imageResult) walletData))
                       else
                         match arrayBuffer imageResponse with
                         | inl e => ret (Unhandled e)
                         | inr image =>
                             ret (new_Response P image
                                    (image_headers address (bnsName walletData)))
                         end
                   end
               end
         end)%eff.

End Routes.

End V2.

(** ** Version 1.0.0: the payment requirement of the stx402 image endpoint
    is passed through *)

Module V1.
Import JS Http Wallet.

Record Bindings : Type := {
  STX402_BASE : string
}.

Definition stx402_call (base prompt : string) : Call :=
  Post (base ++ "/api/ai/generate-image")
       [("Content-Type", "application/json")]
       (JObj [("prompt", JStr prompt);
              ("width", JNum 1024%float);
              ("height", JNum 576%float)]).

(** [generateImage]: the settled [fetch], not caught here. *)
Definition generateImage (base prompt : string) : Eff FetchResult :=
  do_fetch (stx402_call base prompt).

(** [{ ...v }]: the own enumerable properties; nothing for [null],
    [undefined], numbers and booleans. *)
Definition spread (v : JsVal) : list (string * JsVal) :=
  match entries v with
  | inr props => props
  | inl _ => []
  end.

(** A property written after a spread: it replaces the value of an existing
    key in place, or is added last. *)
Fixpoint set_prop (k : string) (v : JsVal) (props : list (string * JsVal))
  : list (string * JsVal) :=
  match props with
  | [] => [(k, v)]
  | (k', v') :: rest =>
      if String.eqb k k' then (k', v) :: rest
      else (k', v') :: set_prop k v rest
  end.

Definition payment_required (paymentInfo : JsVal) (walletData : WalletData)
           (prompt : string) : JsVal :=
  JObj (set_prop "prompt" (JStr prompt)
         (set_prop "walletData" (walletData_json walletData)
            (set_prop "note" (JStr "Pay to generate your wallet identity card")
               (spread paymentInfo)))).

(** The [headers] literal of the image response. *)
Definition image_headers (address : string) (bns : JsVal) : list (string * JsVal) :=
  [("Content-Type", JStr "image/png");
   ("Cache-Control", JStr "public, max-age=3600");
   ("X-Wallet-Address", JStr address);
   ("X-BNS-Name", or_else bns (JStr "none"))].

(** [imageRes.status] as a number *)
Definition status_number (res : HttpResponse) : JsNum :=
  Z_to_num (Z.of_nat (status res)).

Section Routes.
Variable P : Platform.

(** [app.get('/card/:address')].  Nothing is caught in the handler: an
    exception of [buildImagePrompt], of the generator call, of [json], of
    [arrayBuffer] or of [new Response] leaves it. *)
Definition card (env : Bindings) (address : string) : Eff Response :=
  if negb (valid_address address) then ret invalid_address_response
  else
    (walletData <- fetchWalletData P address ;;
     match buildImagePrompt P walletData with
     | inl e => ret (Unhandled e)
     | inr prompt =>
         r <- generateImage (STX402_BASE env) prompt ;;
         match r with
         | Rejected e => ret (Unhandled e)
         | Fulfilled imageRes =>
             if (status imageRes =? 402)%nat
             then
               match json imageRes with
               | inl e => ret (Unhandled e)
               | inr paymentInfo =>
                   ret (Json 402 (payment_required paymentInfo walletData prompt))
               end
             else if negb (res_ok imageRes)
             then ret (Json 500
                         (JObj [("error", JStr "Failed to generate image");
                                ("status", JNum (status_number imageRes));
                                ("walletData", walletData_json walletData);
                                ("prompt", JStr prompt)]))
             else
               match arrayBuffer imageRes with
               | inl e => ret (Unhandled e)
               | inr image =>
                   ret (new_Response P image
                          (image_headers address (bnsName walletData)))
               end
         end
     end)%eff.

End Routes.

End V1.

(** ** Concrete platforms, worlds and payloads to run the model on *)

Module Demo.
Import JS Http Wallet.

Definition Z_to_string (z : Z) : string := NilZero.string_of_int (Z.to_int z).

Definition strip_spaces_end (s : string) : string :=
  rev_string EmptyString (skip_spaces (rev_string EmptyString s)).

(** The integer an integer-valued number is. *)
Definition float_to_Z (f : float) : option Z :=
  match Prim2SF f with
  | S754_zero _ => Some 0%Z
  | S754_finite s m e =>
      if (0 <=? e)%Z then Some (cond_Zopp s (Z.pos m * 2 ^ e))%Z
      else
        let d := (2 ^ (- e))%Z in
        if (Z.pos m mod d =? 0)%Z then Some (cond_Zopp s (Z.pos m / d))%Z
        else None
  | _ => None
  end.

(** A stand-in for [BigInt]: it reads decimal digit strings, with an
    optional sign and surrounding blanks, the empty string as 0, booleans and
    integer-valued numbers, as [BigInt] does.  Hexadecimal, octal and binary
    strings, which [BigInt] also reads, and arrays and objects, which it
    converts to a string first, are rejected here. *)
Definition demo_BigInt (v : JsVal) : Throws Z :=
  match v with
  | JStr s =>
      let t := strip_spaces_end (skip_spaces s) in
      let '(neg, digits) :=
        match t with
        | String "-" r => (true, r)
        | String "+" r => (false, r)
        | _ => (false, t)
        end in
      match t, read_digits None digits with
      | EmptyString, _ => ok 0%Z
      | _, Some z =>
          if all_chars is_digit digits then ok (if neg then - z else z)%Z
          else throw (Thrown "SyntaxError: Cannot convert to a BigInt")
      | _, None => throw (Thrown "SyntaxError: Cannot convert to a BigInt")
      end
  | JNum n =>
      match float_to_Z n with
      | Some z => ok z
      | None => throw (Thrown "RangeError: The number cannot be converted to a BigInt because it is not an integer")
      end
  | JBool b => ok (if b then 1 else 0)%Z
  | _ => throw (Thrown "TypeError: Cannot convert to a BigInt")
  end.

Definition two_digits (z : Z) : string :=
  (if (z <? 10)%Z then "0" else EmptyString) ++ Z_to_string z.

(** [(Number(b) / 1_000_000).toFixed(2)] as the language defines it, for
    amounts below 10^21: the integer is rounded to a number, the number is
    divided, and of the quotient [x] the integer [n] with [n / 100] nearest
    to [x] is printed with two decimals, the larger [n] on a tie. *)
Definition demo_microToFixed2 (b : Z) : string :=
  let x := (Z_to_num b / 1000000)%float in
  match Prim2SF x with
  | S754_zero _ => "0.00"
  | S754_finite s m e =>
      let n := if (0 <=? e)%Z then (Z.pos m * 2 ^ e * 100)%Z
               else ((2 * Z.pos m * 100 + 2 ^ (- e)) / (2 * 2 ^ (- e)))%Z in
      (if s then "-" else EmptyString)
      ++ Z_to_string (n / 100) ++ "." ++ two_digits (n mod 100)
  | S754_infinity s => if s then "-Infinity" else "Infinity"
  | S754_nan => "NaN"
  end.

(** A stand-in for [String(n)]: NaN, the infinities, and the decimal form
    of an integer-valued number, which is what JavaScript prints below
    10^21; a number with a fraction is cut to its integer part. *)
Definition demo_Number_toString (n : JsNum) : string :=
  match Prim2SF n with
  | S754_nan => "NaN"
  | S754_infinity s => if s then "-Infinity" else "Infinity"
  | S754_zero _ => "0"
  | S754_finite s m e =>
      Z_to_string (cond_Zopp s (if (0 <=? e)%Z then Z.pos m * 2 ^ e
                                else Z.pos m / 2 ^ (- e)))%Z
  end.

Definition demo_platform : Platform :=
  {| BigInt := demo_BigInt;
     microToFixed2 := demo_microToFixed2;
     toISOString := fun ms => Z_to_string ms ++ "ms";
     Number_toString := demo_Number_toString |}.

Definition network_down : FetchResult := Rejected (Thrown "TypeError: fetch failed").

(** A world whose upstream calls settle as scripted, in order; calls past
    the script are rejected. *)
Definition scripted (rs : list FetchResult) : World :=
  {| fetch := fun n _ => nth n rs network_down;
     randomUUID := "3b241101-e2bb-4255-8caf-4136c566a962";
     now := 1767225600000 |}.

Definition replied (code : nat) (body : JsVal) : FetchResult :=
  Fulfilled {| status := code; json := inr body; arrayBuffer := inr [] |}.

Definition bytes_reply (code : nat) (bytes : list Byte.byte) : FetchResult :=
  Fulfilled {| status := code;
               json := inl (Thrown "SyntaxError: Unexpected token");
               arrayBuffer := inr bytes |}.

Definition addr : string := "SP2J6ZY48GV1EZ5V2V5RB9MP66SW86PYKKNRV9EJ7".

Definition env2 : V2.Bindings :=
  {| V2.PAYMENT_ADDRESS := V2.PAYMENT_CONTRACT_address;
     V2.OPENAI_API_KEY := Some "sk-demo" |}.

Definition env1 : V1.Bindings := {| V1.STX402_BASE := "https://stx402.com" |}.

(** A confirmed call of the expected contract. *)
Definition paid_tx : JsVal :=
  JObj [("tx_id", JStr "0xabc");
        ("tx_status", JStr "success");
        ("tx_type", JStr "contract_call");
        ("sender_address", JStr "SP3FBR2AGK5H9QBDH3EEN6DF8EK8JY7RX8QJ5SVTE");
        ("contract_call", JObj [("contract_id", JStr V2.expectedContract);
                                ("function_name", JStr "call-with-stx")])].

Definition token (contract name balance : string) : string * JsVal :=
  ((contract ++ "::" ++ name)%string, JObj [("balance", JStr balance)]).

Definition collection (contract name n : string) : string * JsVal :=
  ((contract ++ "::" ++ name)%string, JObj [("count", JStr n)]).

(** Eight fungible holdings and seven collections. *)
Definition eight_tokens : list (string * JsVal) :=
  [token "SP1.welsh" "welshcorgicoin" "1000000";
   token "SP2.leo" "leo" "2500000";
   token "SP3.not" "NOT" "30000";
   token "SP4.alex" "alex" "4000000";
   token "SP5.usda" "usda" "5000000";
   token "SP6.diko" "diko" "6000000";
   token "SP7.roo" "kangaroo" "7000000";
   token "SP8.pepe" "pepe" "8000000"].

Definition seven_collections : list (string * JsVal) :=
  [collection "SP1.megapont-robot-nft" "Megapont-Robot" "4";
   collection "SP2.bitcoin-monkeys" "bitcoin-monkeys" "2";
   collection "SP3.crashpunks-v2" "crashpunks" "1";
   collection "SP4.stacks-parrots" "parrots" "10";
   collection "SP5.bns" "names" "3";
   collection "SP6.satoshibles" "Satoshibles" "20";
   collection "SP7.the-explorer-guild" "The-Explorer-Guild" "2"].

Definition balances_payload : JsVal :=
  JObj [("stx", JObj [("balance", JStr "1234560000")]);
        ("fungible_tokens", JObj eight_tokens);
        ("non_fungible_tokens", JObj seven_collections)].

Definition names_payload : JsVal :=
  JObj [("names", JArr [JStr "whoabuddy.btc"])].

(** An object that cannot be converted to a string, as JSON
    [{"toString": 1}] parses to. *)
Definition unprintable : JsVal := JObj [("toString", JNum 1%float)].

End Demo.

(** * Vocabulary of the properties *)

Import JS Http Wallet.

(** The status of a response; an exception the handler does not catch is
    answered 500 by the framework. *)
Definition status_code (r : Response) : nat :=
  match r with
  | Json code _ => code
  | Binary _ _ => 200
  | Unhandled _ => 500
  end.

(** The body field [k] of a JSON response; [undefined] when there is none. *)
Definition body_field (r : Response) (k : string) : JsVal :=
  match r with
  | Json _ body => opt_get body k
  | _ => JUndef
  end.

Definition is_nullish (v : JsVal) : bool :=
  match v with
  | JUndef | JNull => true
  | _ => false
  end.

(** The values a template literal can print: every value but an object
    with a [toString] property of its own, and but an array that holds such
    an object ([null] and [undefined] items are printed as nothing). *)
Fixpoint printable (v : JsVal) : bool :=
  match v with
  | JArr items =>
      forallb (fun x => match x with
                        | JUndef | JNull => true
                        | _ => printable x
                        end) items
  | JObj props => negb (has_key "toString" props)
  | _ => true
  end.

(** *** The payment verdict: the four conditions, read off the settled
    transaction lookup *)

Definition lookup_found (r : FetchResult) : bool :=
  match r with
  | Fulfilled res => res_ok res
  | Rejected _ => false
  end.

(** The transaction the lookup returned; [undefined] when there is none. *)
Definition transaction (r : FetchResult) : JsVal :=
  match r with
  | Fulfilled res =>
      match json res with
      | inr tx => tx
      | inl _ => JUndef
      end
  | Rejected _ => JUndef
  end.

Definition status_success (r : FetchResult) : bool :=
  is_string "success" (opt_get (transaction r) "tx_status").

Definition type_contract_call (r : FetchResult) : bool :=
  is_string "contract_call" (opt_get (transaction r) "tx_type").

Definition contract_expected (r : FetchResult) : bool :=
  is_string V2.expectedContract
            (opt_get (opt_get (transaction r) "contract_call") "contract_id").

(** *** The aggregation *)

(** The four lookups of one aggregation, in the order they are started. *)
Definition lookups (address : string) : list Call :=
  [Get (bns_url address); Get (balances_url address);
   Get (balances_url address); Get (balances_url address)].

(** The record built from the upstream calls number [n] to [n + 3]. *)
Definition wallet_at (P : Platform) (w : World) (n : nat) (address : string)
  : WalletData :=
  let nftData :=
    getNftHoldings_of P (fetch w (S (S (S n))) (Get (balances_url address))) in
  {| address := address;
     bnsName := getBnsName_of (fetch w n (Get (bns_url address)));
     stxBalance := getStxBalance_of P (fetch w (S n) (Get (balances_url address)));
     ftBalances :=
       getFtBalances_of P (fetch w (S (S n)) (Get (balances_url address)));
     nftCount := count nftData;
     topNfts := top nftData |}.

(** A lookup that did not deliver a payload: the call was rejected, the
    response is outside 2xx, or its body is not JSON. *)
Definition lookup_failed (r : FetchResult) : bool :=
  match r with
  | Rejected _ => true
  | Fulfilled res =>
      negb (res_ok res)
      || match json res with inl _ => true | inr _ => false end
  end.

(** The record of a total upstream outage. *)
Definition degraded (address : string) : WalletData :=
  {| address := address;
     bnsName := JNull;
     stxBalance := "0";
     ftBalances := [];
     nftCount := 0%float;
     topNfts := [] |}.

(** The entries the provider returned under the field [k] of a balances
    payload: [Object.entries(data.k || {})]. *)
Definition payload_entries (data : JsVal) (k : string)
  : Throws (list (string * JsVal)) :=
  (v <~ get data k ;; entries (or_else v (JObj [])))%throws.

(** The entries a settled balances lookup provides under [k]: none when the
    call was rejected, the response is outside 2xx, its body is not JSON or
    is [null]. *)
Definition provided (r : FetchResult) (k : string)
  : option (list (string * JsVal)) :=
  match r with
  | Rejected _ => None
  | Fulfilled res =>
      if res_ok res
      then match json res with
           | inl _ => None
           | inr data =>
               match payload_entries data k with
               | inl _ => None
               | inr es => Some es
               end
           end
      else None
  end.

(** The display name of a fungible holding: what follows ["::"] in its key. *)
Definition token_name (e : string * JsVal) : string :=
  str_or (nth_error (split "::" (fst e)) 1) "Token".

(** The item count of one collection entry: [parseInt(nft.count || '0', 10)]. *)
Definition item_count (P : Platform) (nft : JsVal) : Throws JsNum :=
  (c <~ get nft "count" ;; parseInt10 P (or_else c (JStr "0")))%throws.

(** The item counts of all the entries, in order. *)
Definition counts_of (P : Platform) (es : list (string * JsVal))
  : Throws (list JsNum) :=
  map_throws (fun e => item_count P (snd e)) es.

(** Numbers added up from the left, as [reduce] does, starting from 0. *)
Definition total (cs : list JsNum) : JsNum := fold_left num_add cs 0%float.

(** *** The gate *)

(** [c.env.OPENAI_API_KEY || ''] *)
Definition api_key (env : V2.Bindings) : string :=
  V2.string_of (V2.OPENAI_API_KEY env).

Definition challenge_response (P : Platform) (w : World) (address : string)
  : Response :=
  Json 402 (V2.challenge address (randomUUID w)
              (toISOString P (now w + 10 * 60 * 1000))).

Definition rejection_response (v : V2.Verification) : Response :=
  Json 403 (JObj [("error", JStr "Payment verification failed");
                  ("details", V2.opt_string (V2.error v))]).

(** What [/card/:address] of version 2.0.0 does for a valid address and a
    non-empty payment header, as one expression over the settled upstream
    calls: the transaction lookup is call 0, the four wallet lookups are
    calls 1 to 4, the generator is call 5 and the image download call 6. *)
Definition paid_card (P : Platform) (env : V2.Bindings) (w : World)
           (address txid : string) : Response * list Call :=
  let verification := V2.verifyPayment_of P (fetch w 0 (Get (V2.tx_url txid))) in
  let walletData := wallet_at P w 1 address in
  if negb (V2.valid verification)
  then (rejection_response verification, [Get (V2.tx_url txid)])
  else
    match buildImagePrompt P walletData with
    | inl e => (Unhandled e, Get (V2.tx_url txid) :: lookups address)
    | inr prompt =>
        let generation := V2.openai_call (api_key env) prompt in
        let imageResult := V2.generateImage_of (fetch w 5 generation) in
        if String.eqb (api_key env) EmptyString
        then (Json 500 (V2.generation_failed
                          (JStr "Image generation not configured")
                          walletData prompt txid),
              Get (V2.tx_url txid) :: lookups address)
        else if negb (V2.success imageResult)
        then (Json 500 (V2.generation_failed (V2.image_error imageResult)
                          walletData prompt txid),
              Get (V2.tx_url txid) :: (lookups address ++ [generation])%list)
        else
          match to_string P (V2.imageUrl imageResult) with
          | inl e =>
              (Unhandled e,
               Get (V2.tx_url txid) :: (lookups address ++ [generation])%list)
          | inr url =>
              (match fetch w 6 (Get url) with
               | Rejected e => Unhandled e
               | Fulfilled imageResponse =>
                   if negb (res_ok imageResponse)
                   then Json 500 (V2.image_fetch_failed
                                    (V2.imageUrl imageResult) walletData)
                   else
                     match arrayBuffer imageResponse with
                     | inl e => Unhandled e
                     | inr image =>
                         new_Response P image
                           (V2.image_headers address (bnsName walletData))
                     end
               end,
               Get (V2.tx_url txid)
                 :: (lookups address ++ [generation; Get url])%list)
          end
    end.

(** [/card/:address] of version 1.0.0 for a valid address, likewise: the
    four wallet lookups are calls 0 to 3 and the stx402 generator is call 4. *)
Definition forwarded_card (P : Platform) (env : V1.Bindings) (w : World)
           (address : string) : Response * list Call :=
  let walletData := wallet_at P w 0 address in
  match buildImagePrompt P walletData with
  | inl e => (Unhandled e, lookups address)
  | inr prompt =>
      let generation := V1.stx402_call (V1.STX402_BASE env) prompt in
      (match fetch w 4 generation with
       | Rejected e => Unhandled e
       | Fulfilled imageRes =>
           if (status imageRes =? 402)%nat
           then match json imageRes with
                | inl e => Unhandled e
                | inr paymentInfo =>
                    Json 402 (V1.payment_required paymentInfo walletData prompt)
                end
           else if negb (res_ok imageRes)
           then Json 500
                  (JObj [("error", JStr "Failed to generate image");
                         ("status", JNum (V1.status_number imageRes));
                         ("walletData", walletData_json walletData);
                         ("prompt", JStr prompt)])
           else
             match arrayBuffer imageRes with
             | inl e => Unhandled e
             | inr image =>
                 new_Response P image
                   (V1.image_headers address (bnsName walletData))
             end
       end,
       (lookups address ++ [generation])%list)
  end.

(** One step of a [try] body. *)
Ltac js_step :=
  cbn [try_catch tbind await ok throw negb List.length top count].

(** A getter on a lookup [r] that failed (hypothesis [H]). *)
Ltac failed_lookup r H :=
  destruct r as [? | res]; [reflexivity |];
  simpl in H; simpl;
  destruct (res_ok res); simpl in *; [| reflexivity];
  destruct (json res); [reflexivity | discriminate H].

(** *** Further vocabulary: keys, call logs, the generator's answer *)

(** No character of [s] is [c]. *)
Definition lacks (c : ascii) (s : string) : bool :=
  all_chars (fun x => negb (Ascii.eqb x c)) s.

(** The calls of a log that are POST requests (the generator calls). *)
Definition is_post (c : Call) : bool :=
  match c with
  | Post _ _ _ => true
  | Get _ => false
  end.

Definition posts (log : list Call) : list Call := filter is_post log.

(** The generator's answer lets [data.data[0].url] be read: it is 2xx, its
    body is JSON, and neither the body, nor its [data], nor the first item
    of that is [null] or [undefined]. *)
Definition image_ready (r : FetchResult) : bool :=
  match r with
  | Rejected _ => false
  | Fulfilled res =>
      res_ok res
      && match json res with
         | inl _ => false
         | inr data =>
             negb (is_nullish data)
             && negb (is_nullish (opt_get data "data"))
             && negb (is_nullish (index0 (opt_get data "data")))
         end
  end.

(** The URL the generator's answer names; [undefined] when it names none. *)
Definition image_url (r : FetchResult) : JsVal :=
  opt_get (index0 (opt_get (transaction r) "data")) "url".

(** The labels a holding can get. *)
Definition ft_labelled (t : FtBalance) : Prop :=
  ft_name t <> EmptyString
  /\ ft_symbol t <> EmptyString
  /\ (String.length (ft_symbol t) <= 6)%nat
  /\ (ft_symbol t = take 6 (ft_name t)
      \/ (ft_name t = "Token" /\ ft_symbol t = "TKN")).

(** * Properties *)

(** ** The built-ins on examples *)

Example valid_address_examples :
  valid_address "SP2J6ZY48GV1EZ5V2V5RB9MP66SW86PYKKNRV9EJ7" = true
  /\ valid_address "SM2J6ZY48GV1EZ5V2V5RB9MP66SW86PYKKNRV9EJ" = true
  /\ valid_address "SP2J6ZY48GV1EZ5V2V5RB9MP66SW86PYKKNRV9EJ7X" = true
  /\ valid_address "SP2J6ZY48GV1EZ5V2V5RB9MP66SW86PYKKNRV9E" = false
  /\ valid_address "SP2J6ZY48GV1EZ5V2V5RB9MP66SW86PYKKNRV9EJ7XY" = false
  /\ valid_address "ST2J6ZY48GV1EZ5V2V5RB9MP66SW86PYKKNRV9EJ7" = false
  /\ valid_address "SP2j6ZY48GV1EZ5V2V5RB9MP66SW86PYKKNRV9EJ7" = false
  /\ valid_address ("SP2J6ZY48GV1EZ5V2V5RB9MP66SW86PYKKNRV9EJ7" ++ newline) = false
  /\ valid_address EmptyString = false.
Proof. repeat split. Qed.

Example split_examples :
  split "::" "SP3K8.welshcorgicoin-token::welshcorgicoin"
  = ["SP3K8.welshcorgicoin-token"; "welshcorgicoin"]
  /\ split "::" "no-separator" = ["no-separator"]
  /\ split "::" "a::b::c" = ["a"; "b"; "c"]
  /\ split "::" "a::" = ["a"; EmptyString]
  /\ split "::" ":::" = [EmptyString; ":"]
  /\ split "." "SP3K8.welshcorgicoin-token" = ["SP3K8"; "welshcorgicoin-token"]
  /\ split "::" EmptyString = [EmptyString].
Proof. repeat split. Qed.

Example parseInt10_examples :
  parseInt10_string "42" = 42%float
  /\ parseInt10_string "  -7 items" = (-7)%float
  /\ parseInt10_string "many" = NaN
  /\ parseInt10_string EmptyString = NaN
  /\ parseInt10_string "9007199254740993" = 9007199254740992%float
  /\ parseInt10 Demo.demo_platform (JNum 12%float) = inr 12%float
  /\ parseInt10 Demo.demo_platform (JBool true) = inr NaN
  /\ parseInt10 Demo.demo_platform Demo.unprintable = inl cannot_convert
  /\ num_add 3%float NaN = NaN
  /\ num_add 9007199254740992%float 1%float = 9007199254740992%float.
Proof. vm_compute. repeat split. Qed.

Example headers_examples :
  sent_headers Demo.demo_platform [("X-BNS-Name", JStr " whoabuddy.btc ")]
  = inr [("X-BNS-Name", "whoabuddy.btc")]
  /\ sent_headers Demo.demo_platform
       [("X-BNS-Name", JStr ("whoabuddy.btc" ++ newline))]
     = inr [("X-BNS-Name", "whoabuddy.btc")]
  /\ sent_headers Demo.demo_platform
       [("X-BNS-Name", JStr ("whoa" ++ newline ++ "buddy.btc"))]
     = inl invalid_header_value
  /\ sent_headers Demo.demo_platform [("X-BNS-Name", Demo.unprintable)]
     = inl cannot_convert.
Proof. vm_compute. repeat split. Qed.

(** ** Strings and property lists *)

Lemma prefix_append (s t : string) : String.prefix s (s ++ t) = true.
Proof.
  induction s as [| c s IH]; simpl.
  - now destruct t.
  - destruct (ascii_dec c c) as [_ | ne]; [exact IH | now destruct ne].
Qed.

Lemma append_length (s t : string) :
  String.length (s ++ t) = (String.length s + String.length t)%nat.
Proof. induction s as [| c s IH]; simpl; [reflexivity | now rewrite IH]. Qed.

Lemma append_longer (p s : string) : p <> EmptyString -> p ++ s <> s.
Proof.
  intros Hp E. apply (f_equal String.length) in E.
  rewrite append_length in E. destruct p; [now apply Hp | simpl in E; lia].
Qed.

Lemma lookup_set_prop_same k v props : lookup k (V1.set_prop k v props) = v.
Proof.
  induction props as [| [k' v'] rest IH]; simpl.
  - now rewrite String.eqb_refl.
  - destruct (String.eqb k k') eqn:E; simpl; rewrite E; [reflexivity | exact IH].
Qed.

Lemma lookup_set_prop_other k k' v props :
  String.eqb k k' = false ->
  lookup k (V1.set_prop k' v props) = lookup k props.
Proof.
  intros Hk. induction props as [| [k0 v0] rest IH]; simpl.
  - now rewrite Hk.
  - destruct (String.eqb k' k0) eqn:E; simpl.
    + apply String.eqb_eq in E. subst k0. now rewrite Hk.
    + now rewrite IH.
Qed.

Lemma get_not_nullish v k : is_nullish v = false -> get v k = inr (opt_get v k).
Proof. now destruct v. Qed.

Lemma entries_or_empty v : exists es, entries (or_else v (JObj [])) = inr es.
Proof.
  unfold or_else. destruct (truthy v) eqn:T; [| eexists; reflexivity].
  destruct v; try discriminate T; eexists; reflexivity.
Qed.

(** ** Payment-claim normalization (C10) *)

(** C10.  [verifyPayment] prepends ["0x"] to the claim exactly when the
    claim does not start with it: the normalized reference always starts
    with ["0x"], normalizing twice is normalizing once, the reference is the
    claim itself iff the claim already had the prefix and is ["0x"] followed
    by the claim otherwise.  Nothing else is checked: for every claim, of
    any length and over any characters, the one upstream call of
    [verifyPayment] is the lookup of the normalized reference. *)
Theorem normalizeTxid_prefix_idempotent (P : Platform) (w : World) (txid : string) :
  startsWith "0x" (V2.normalizeTxid txid) = true
  /\ V2.normalizeTxid (V2.normalizeTxid txid) = V2.normalizeTxid txid
  /\ (V2.normalizeTxid txid = txid <-> startsWith "0x" txid = true)
  /\ (V2.normalizeTxid txid = txid \/ V2.normalizeTxid txid = "0x" ++ txid)
  /\ snd (run (V2.verifyPayment P txid) w)
     = [Get (HIRO_API ++ "/extended/v1/tx/" ++ V2.normalizeTxid txid)].
Proof.
  assert (Hpre : startsWith "0x" (V2.normalizeTxid txid) = true).
  { unfold V2.normalizeTxid. destruct (startsWith "0x" txid) eqn:E.
    - exact E.
    - apply (prefix_append "0x" txid). }
  split; [exact Hpre |].
  split; [unfold V2.normalizeTxid at 1; now rewrite Hpre |].
  split; [| split; [| reflexivity]].
  - unfold V2.normalizeTxid. destruct (startsWith "0x" txid) eqn:E.
    + now split.
    + split; [| discriminate].
      intros H. exfalso. now apply (append_longer "0x" txid).
  - unfold V2.normalizeTxid. destruct (startsWith "0x" txid); [now left | now right].
Qed.

(** ** The payment verdict (C2) *)

Lemma verifyPayment_of_cases (P : Platform) (r : FetchResult) :
  (lookup_found r && status_success r && type_contract_call r
     && contract_expected r = true
   /\ V2.verifyPayment_of P r
      = {| V2.valid := true;
           V2.sender := opt_get (transaction r) "sender_address";
           V2.error := None |})
  \/ (lookup_found r && status_success r && type_contract_call r
        && contract_expected r = false
      /\ exists reason, V2.verifyPayment_of P r = V2.invalid reason).
Proof.
  unfold status_success, type_contract_call, contract_expected.
  destruct r as [e | res]; simpl.
  - right. split; [reflexivity | eexists; reflexivity].
  - unfold V2.verifyPayment_of; simpl.
    destruct (res_ok res) eqn:Hok; simpl.
    2:{ right. split; [reflexivity | eexists; reflexivity]. }
    destruct (json res) as [e | tx]; simpl.
    { right. split; [reflexivity | eexists; reflexivity]. }
    destruct tx as [ | | b | n | s | items | props];
      cbn [get tbind throw ok try_catch is_string negb opt_get andb];
      try (right; split; [reflexivity | eexists; reflexivity]).
    destruct (is_string "success" (lookup "tx_status" props)); cbn [negb andb].
    2:{ right. split; [reflexivity |].
        destruct (to_string P (lookup "tx_status" props));
          eexists; reflexivity. }
    destruct (is_string "contract_call" (lookup "tx_type" props));
      cbn [negb andb tbind ok try_catch].
    2:{ right. split; [reflexivity | eexists; reflexivity]. }
    destruct (is_string V2.expectedContract
                (opt_get (lookup "contract_call" props) "contract_id"));
      cbn [negb andb tbind ok try_catch].
    + left. split; reflexivity.
    + right. split; [reflexivity | eexists; reflexivity].
Qed.

(** C2.  [verifyPayment] makes one call, the transaction lookup, and its
    verdict is a function of how that call settles.  The verdict is valid,
    with the transaction's [sender_address] as sender and no error, if and
    only if the lookup was found (2xx), the transaction status is
    [success], its type is [contract_call] and the called contract is the
    expected one; in every other case it is invalid, with a reason string
    and no sender.  A rejected [fetch] and an unreadable body give the
    reason ["Verification failed: ..."], a response outside 2xx the reason
    ["Transaction not found"]. *)
Theorem verifyPayment_valid_iff (P : Platform) (w : World) (txid : string)
        (r : FetchResult) :
  run (V2.verifyPayment P txid) w
  = (V2.verifyPayment_of P (fetch w 0 (Get (V2.tx_url txid))),
     [Get (V2.tx_url txid)])
  /\ (V2.valid (V2.verifyPayment_of P r) = true
      <-> lookup_found r = true /\ status_success r = true
          /\ type_contract_call r = true /\ contract_expected r = true)
  /\ ((V2.valid (V2.verifyPayment_of P r) = true
       /\ V2.sender (V2.verifyPayment_of P r)
          = opt_get (transaction r) "sender_address"
       /\ V2.error (V2.verifyPayment_of P r) = None)
      \/ (V2.valid (V2.verifyPayment_of P r) = false
          /\ V2.sender (V2.verifyPayment_of P r) = JUndef
          /\ exists reason, V2.error (V2.verifyPayment_of P r) = Some reason))
  /\ (forall e, V2.verifyPayment_of P (Rejected e)
                = V2.invalid ("Verification failed: " ++ exn_text e))
  /\ (forall res, res_ok res = false ->
                  V2.verifyPayment_of P (Fulfilled res)
                  = V2.invalid "Transaction not found")
  /\ (forall res e, res_ok res = true -> json res = inl e ->
                    V2.verifyPayment_of P (Fulfilled res)
                    = V2.invalid ("Verification failed: " ++ exn_text e)).
Proof.
  split; [reflexivity |].
  split; [| split; [| split; [| split]]].
  - split.
    + intros Hv. destruct (verifyPayment_of_cases P r) as [[H4 _] | [_ [reason E]]].
      * apply andb_prop in H4 as [H4 Hc]. apply andb_prop in H4 as [H4 Ht].
        apply andb_prop in H4 as [Hf Hs]. now repeat split.
      * rewrite E in Hv. discriminate.
    + intros (H1 & H2 & H3 & H4).
      destruct (verifyPayment_of_cases P r) as [[_ E] | [Hn _]].
      * now rewrite E.
      * rewrite H1, H2, H3, H4 in Hn. discriminate.
  - destruct (verifyPayment_of_cases P r) as [[_ E] | [_ [reason E]]].
    + left. now rewrite E.
    + right. rewrite E. repeat split. now exists reason.
  - reflexivity.
  - intros res Hok. unfold V2.verifyPayment_of; simpl. now rewrite Hok.
  - intros res e Hok Hj. unfold V2.verifyPayment_of; simpl. now rewrite Hok, Hj.
Qed.

(** ** The wallet record (C3) *)

Lemma fetchWalletData_run P address w log :
  fetchWalletData P address w log
  = (wallet_at P w (List.length log) address, (log ++ lookups address)%list).
Proof.
  unfold fetchWalletData, getBnsName, getStxBalance, getFtBalances,
    getNftHoldings, bind, ret, do_fetch, wallet_at, lookups.
  cbv beta iota. rewrite !last_length, <- !app_assoc. reflexivity.
Qed.

Lemma getBnsName_failed r : lookup_failed r = true -> getBnsName_of r = JNull.
Proof. intros H. unfold getBnsName_of. failed_lookup r H. Qed.

Lemma getStxBalance_failed P r :
  lookup_failed r = true -> getStxBalance_of P r = "0".
Proof. intros H. unfold getStxBalance_of. failed_lookup r H. Qed.

Lemma getFtBalances_failed P r :
  lookup_failed r = true -> getFtBalances_of P r = [].
Proof. intros H. unfold getFtBalances_of. failed_lookup r H. Qed.

Lemma getNftHoldings_failed P r :
  lookup_failed r = true ->
  getNftHoldings_of P r = {| count := 0%float; top := [] |}.
Proof. intros H. unfold getNftHoldings_of. failed_lookup r H. Qed.

Lemma data_run P w address :
  valid_address address = true ->
  run (data P address) w
  = (Json 200 (walletData_json (wallet_at P w 0 address)), lookups address).
Proof.
  intros Hv. unfold run, data. rewrite Hv. cbn [negb].
  unfold bind. rewrite fetchWalletData_run. reflexivity.
Qed.

Lemma prompt_run P w address :
  valid_address address = true ->
  run (prompt P address) w
  = (match buildImagePrompt P (wallet_at P w 0 address) with
     | inl e => Unhandled e
     | inr p =>
         Json 200
           (JObj [("walletData", walletData_json (wallet_at P w 0 address));
                  ("prompt", JStr p);
                  ("note", JStr "This prompt will be sent to AI image generation when you call /card/:address")])
     end,
     lookups address).
Proof.
  intros Hv. unfold run, prompt. rewrite Hv. cbn [negb].
  unfold bind. rewrite fetchWalletData_run.
  now destruct (buildImagePrompt P _).
Qed.

(** C3.  For every valid address and every way the four lookups settle,
    [/data/:address] answers 200 with a wallet record for that address,
    after exactly the four lookups.  Each field takes its default as soon as
    its own lookup fails, whatever the others do: [bnsName] null,
    [stxBalance] ["0"], [ftBalances] empty, [nftCount] 0 and [topNfts]
    empty; when all four fail the record is the fully degraded one. *)
Theorem walletData_never_fails (P : Platform) (w : World) (address : string) :
  valid_address address = true ->
  exists wd : WalletData,
    run (data P address) w = (Json 200 (walletData_json wd), lookups address)
    /\ Wallet.address wd = address
    /\ (lookup_failed (fetch w 0 (Get (bns_url address))) = true ->
        bnsName wd = JNull)
    /\ (lookup_failed (fetch w 1 (Get (balances_url address))) = true ->
        stxBalance wd = "0")
    /\ (lookup_failed (fetch w 2 (Get (balances_url address))) = true ->
        ftBalances wd = [])
    /\ (lookup_failed (fetch w 3 (Get (balances_url address))) = true ->
        nftCount wd = 0%float /\ topNfts wd = [])
    /\ ((forall n c, lookup_failed (fetch w n c) = true) ->
        wd = degraded address).
Proof.
  intros Hv. exists (wallet_at P w 0 address).
  split; [now apply data_run |].
  split; [reflexivity |].
  split; [apply getBnsName_failed |].
  split; [apply getStxBalance_failed |].
  split; [apply getFtBalances_failed |].
  split.
  - intros H. unfold wallet_at; simpl.
    now rewrite (getNftHoldings_failed P _ H).
  - intros H. unfold wallet_at, degraded.
    rewrite (getBnsName_failed _ (H _ _)), (getStxBalance_failed P _ (H _ _)),
      (getFtBalances_failed P _ (H _ _)), (getNftHoldings_failed P _ (H _ _)).
    reflexivity.
Qed.

Lemma walletData_never_fails_witness :
  run (data Demo.demo_platform Demo.addr) (Demo.scripted [])
  = (Json 200 (walletData_json (degraded Demo.addr)), lookups Demo.addr).
Proof.
  destruct (walletData_never_fails Demo.demo_platform (Demo.scripted [])
              Demo.addr eq_refl)
    as (wd & Hrun & _ & _ & _ & _ & _ & Hall).
  rewrite Hrun, Hall; [reflexivity |].
  intros n c. simpl. now destruct n as [| n].
Defined.

(** ** Malformed addresses (C4) *)

(** C4.  For an address that does not match [^S[PM][A-Z0-9]{38,40}$], the
    routes [/data], [/prompt] and [/card] (in both versions, with or without
    a payment header) answer 400 with the body
    [{ error: 'Invalid Stacks address format' }] and start no upstream
    call. *)
Theorem invalid_address_rejected (P : Platform) (w : World)
        (env2 : V2.Bindings) (env1 : V1.Bindings)
        (address : string) (xPayment : option string) :
  valid_address address = false ->
  run (data P address) w = (invalid_address_response, [])
  /\ run (prompt P address) w = (invalid_address_response, [])
  /\ run (V2.card P env2 address xPayment) w = (invalid_address_response, [])
  /\ run (V1.card P env1 address) w = (invalid_address_response, [])
  /\ invalid_address_response
     = Json 400 (JObj [("error", JStr "Invalid Stacks address format")]).
Proof.
  intros Hv. unfold run, data, prompt, V2.card, V1.card. rewrite Hv.
  repeat split.
Qed.

Lemma invalid_address_rejected_witness :
  valid_address "ST2J6ZY48GV1EZ5V2V5RB9MP66SW86PYKKNRV9EJ7" = false
  /\ run (V2.card Demo.demo_platform Demo.env2
            "ST2J6ZY48GV1EZ5V2V5RB9MP66SW86PYKKNRV9EJ7" (Some "0xabc"))
         (Demo.scripted [])
     = (Json 400 (JObj [("error", JStr "Invalid Stacks address format")]), []).
Proof.
  split; [reflexivity |].
  exact (proj1 (proj2 (proj2
    (invalid_address_rejected Demo.demo_platform (Demo.scripted [])
       Demo.env2 Demo.env1 "ST2J6ZY48GV1EZ5V2V5RB9MP66SW86PYKKNRV9EJ7"
       (Some "0xabc") eq_refl)))).
Defined.

(** ** Truncation of the holdings (C8) *)

Lemma map_throws_length {A B} (f : A -> Throws B) xs ys :
  map_throws f xs = inr ys -> List.length ys = List.length xs.
Proof.
  revert ys. induction xs as [| x xs IH]; intros ys; simpl.
  - intros E. now inversion E.
  - destruct (f x) as [e | y]; simpl; [discriminate |].
    destruct (map_throws f xs) as [e | ys']; simpl; [discriminate |].
    intros E. inversion E. simpl. f_equal. now apply IH.
Qed.

(** The [reduce] of [getNftHoldings] converts the counts one by one and
    adds them up from the left; it throws as soon as one conversion does. *)
Lemma reduce_add_count P es init :
  reduce_throws (add_count P) es init
  = (cs <~ counts_of P es ;; ok (fold_left num_add cs init))%throws.
Proof.
  revert init. induction es as [| [key nft] es IH]; intros init.
  - reflexivity.
  - cbn [reduce_throws counts_of map_throws add_count snd].
    unfold item_count at 1.
    destruct (get nft "count") as [e | c]; cbn [tbind]; [reflexivity |].
    destruct (parseInt10 P (or_else c (JStr "0"))) as [e | n]; cbn [tbind ok];
      [reflexivity |].
    rewrite IH. unfold counts_of.
    now destruct (map_throws _ es).
Qed.

Lemma ft_entry_name P e t : ft_entry P e = inr t -> ft_name t = token_name e.
Proof.
  destruct e as [key ft]. unfold ft_entry, token_name. simpl.
  destruct (get ft "balance") as [x | b]; simpl; [discriminate |].
  destruct (BigInt P (or_else b (JStr "0"))) as [x | z]; simpl; [discriminate |].
  intros E. inversion E. reflexivity.
Qed.

Lemma map_throws_names P xs ys :
  map_throws (ft_entry P) xs = inr ys -> map ft_name ys = map token_name xs.
Proof.
  revert ys. induction xs as [| x xs IH]; intros ys; simpl.
  - intros E. now inversion E.
  - destruct (ft_entry P x) as [e | y] eqn:Ex; simpl; [discriminate |].
    destruct (map_throws (ft_entry P) xs) as [e | ys']; simpl; [discriminate |].
    intros E. inversion E. simpl.
    f_equal; [now apply (ft_entry_name P) | now apply IH].
Qed.

Lemma getFtBalances_of_entries P res data fts :
  res_ok res = true ->
  json res = inr data ->
  payload_entries data "fungible_tokens" = inr fts ->
  getFtBalances_of P (Fulfilled res)
  = try_catch (map_throws (ft_entry P) (firstn 5 fts)) (fun _ => []).
Proof.
  intros Hok Hjson Hft. unfold getFtBalances_of. js_step.
  rewrite Hok, Hjson. js_step. unfold payload_entries in Hft.
  destruct (get data "fungible_tokens") as [e | ft0]; cbn [tbind] in Hft;
    [discriminate Hft |].
  js_step. rewrite Hft. reflexivity.
Qed.

Lemma getNftHoldings_of_entries P res data nfts :
  res_ok res = true ->
  json res = inr data ->
  payload_entries data "non_fungible_tokens" = inr nfts ->
  getNftHoldings_of P (Fulfilled res)
  = try_catch
      (cs <~ counts_of P nfts ;;
       ok {| count := total cs; top := map nft_entry (firstn 3 nfts) |})%throws
      (fun _ => {| count := 0%float; top := [] |}).
Proof.
  intros Hok Hjson Hnft. unfold getNftHoldings_of. js_step.
  rewrite Hok, Hjson. js_step. unfold payload_entries in Hnft.
  destruct (get data "non_fungible_tokens") as [e | n0]; cbn [tbind] in Hnft;
    [discriminate Hnft |].
  js_step. rewrite Hnft. js_step. rewrite reduce_add_count.
  now destruct (counts_of P nfts).
Qed.

Lemma provided_some r k es :
  provided r k = Some es ->
  exists res data,
    r = Fulfilled res /\ res_ok res = true /\ json res = inr data
    /\ payload_entries data k = inr es.
Proof.
  unfold provided. destruct r as [e | res]; [discriminate |].
  destruct (res_ok res) eqn:Hok; [| discriminate].
  destruct (json res) as [e | data] eqn:Hjson; [discriminate |].
  destruct (payload_entries data k) as [e | es'] eqn:Hes; [discriminate |].
  intros E. injection E as <-. now exists res, data.
Qed.

Lemma getFtBalances_unprovided P r :
  provided r "fungible_tokens" = None -> getFtBalances_of P r = [].
Proof.
  unfold provided, getFtBalances_of, payload_entries.
  destruct r as [e | res]; js_step; [reflexivity |].
  destruct (res_ok res); js_step; [| reflexivity].
  destruct (json res) as [e | data]; js_step; [reflexivity |].
  destruct (get data "fungible_tokens") as [e | ft0]; js_step; [reflexivity |].
  destruct (entries (or_else ft0 (JObj []))); js_step; [reflexivity | discriminate].
Qed.

Lemma getNftHoldings_unprovided P r :
  provided r "non_fungible_tokens" = None ->
  getNftHoldings_of P r = {| count := 0%float; top := [] |}.
Proof.
  unfold provided, getNftHoldings_of, payload_entries.
  destruct r as [e | res]; js_step; [reflexivity |].
  destruct (res_ok res); js_step; [| reflexivity].
  destruct (json res) as [e | data]; js_step; [reflexivity |].
  destruct (get data "non_fungible_tokens") as [e | n0]; js_step; [reflexivity |].
  destruct (entries (or_else n0 (JObj []))); js_step; [reflexivity | discriminate].
Qed.

Lemma getFtBalances_provided P r fts :
  provided r "fungible_tokens" = Some fts ->
  getFtBalances_of P r
  = try_catch (map_throws (ft_entry P) (firstn 5 fts)) (fun _ => []).
Proof.
  intros H. destruct (provided_some _ _ _ H) as (res & data & -> & Hok & Hj & He).
  now apply getFtBalances_of_entries with (data := data).
Qed.

Lemma getNftHoldings_provided P r nfts :
  provided r "non_fungible_tokens" = Some nfts ->
  getNftHoldings_of P r
  = try_catch
      (cs <~ counts_of P nfts ;;
       ok {| count := total cs; top := map nft_entry (firstn 3 nfts) |})%throws
      (fun _ => {| count := 0%float; top := [] |}).
Proof.
  intros H. destruct (provided_some _ _ _ H) as (res & data & -> & Hok & Hj & He).
  now apply getNftHoldings_of_entries with (data := data).
Qed.

Lemma getFtBalances_at_most_5 P r : (List.length (getFtBalances_of P r) <= 5)%nat.
Proof.
  destruct (provided r "fungible_tokens") as [fts |] eqn:E.
  - rewrite (getFtBalances_provided P r fts E).
    destruct (map_throws (ft_entry P) (firstn 5 fts)) as [e | held] eqn:Eh;
      js_step; [lia |].
    rewrite (map_throws_length _ _ _ Eh), length_firstn. lia.
  - rewrite (getFtBalances_unprovided P r E). cbn. lia.
Qed.

Lemma getNftHoldings_at_most_3 P r :
  (List.length (top (getNftHoldings_of P r)) <= 3)%nat.
Proof.
  destruct (provided r "non_fungible_tokens") as [nfts |] eqn:E.
  - rewrite (getNftHoldings_provided P r nfts E).
    destruct (counts_of P nfts) as [e | cs]; js_step; [lia |].
    rewrite length_map, length_firstn. lia.
  - rewrite (getNftHoldings_unprovided P r E). cbn. lia.
Qed.

(** C8, as the claim states it, fails: not every provider response is
    truncated to its first five holdings and first three collections.  Here
    the provider returns eight holdings, the second with a balance that is
    no integer, and eight collection entries, the last of them [null]: the
    record shows no holding and no collection at all, and the count is 0
    although the first seven collections hold 42 items. *)
Lemma malformed_entry_empties_the_record :
  let tokens :=
    Demo.token "SP1.welsh" "welshcorgicoin" "1000000"
      :: Demo.token "SP2.leo" "leo" "2.5" :: skipn 2 Demo.eight_tokens in
  let collections := (Demo.seven_collections ++ [("SP8.late::late", JNull)])%list in
  let w := Demo.scripted
             [Demo.replied 200 Demo.names_payload;
              Demo.replied 200 Demo.balances_payload;
              Demo.replied 200 (JObj [("fungible_tokens", JObj tokens)]);
              Demo.replied 200 (JObj [("non_fungible_tokens", JObj collections)])] in
  List.length tokens = 8%nat
  /\ List.length collections = 8%nat
  /\ counts_of Demo.demo_platform Demo.seven_collections
     = inr [4; 2; 1; 10; 3; 20; 2]%float
  /\ fst (run (data Demo.demo_platform Demo.addr) w)
     = Json 200
         (walletData_json
            {| address := Demo.addr;
               bnsName := JStr "whoabuddy.btc";
               stxBalance := "1234.56";
               ftBalances := [];
               nftCount := 0%float;
               topNfts := [] |}).
Proof. vm_compute. repeat split. Qed.

(** C8, amended.  For a valid address, [/data/:address] answers with a
    record whose holdings come from the third lookup and whose collections
    and count come from the fourth.
    - When the third lookup provides the entries [fts] and the first five
      of them convert (to [held]), the record keeps exactly these, in the
      order of the payload: [min 5 (length fts)] holdings, named after the
      first five keys.  Entries after the fifth are not looked at.
    - When the fourth lookup provides the entries [nfts] and every count
      converts (to [cs], one number per entry), [nftCount] is all of [cs]
      added up from the left as JavaScript numbers, and [topNfts] is the
      first three entries: [min 3 (length nfts)] collections.
    - In every other case (nothing provided, or a conversion throws) the
      holdings, respectively the collections and the count, are the failure
      defaults: empty and 0.
    - Whatever the lookups return, the record has at most five holdings and
      at most three collections. *)
Theorem truncation_policy (P : Platform) (w : World) (address : string) :
  valid_address address = true ->
  let ftLookup := fetch w 2 (Get (balances_url address)) in
  let nftLookup := fetch w 3 (Get (balances_url address)) in
  exists wd : WalletData,
    run (data P address) w = (Json 200 (walletData_json wd), lookups address)
    /\ (forall fts held,
          provided ftLookup "fungible_tokens" = Some fts ->
          map_throws (ft_entry P) (firstn 5 fts) = inr held ->
          ftBalances wd = held
          /\ List.length held = Nat.min 5 (List.length fts)
          /\ map ft_name held = map token_name (firstn 5 fts))
    /\ (forall nfts cs,
          provided nftLookup "non_fungible_tokens" = Some nfts ->
          counts_of P nfts = inr cs ->
          nftCount wd = total cs
          /\ List.length cs = List.length nfts
          /\ topNfts wd = map nft_entry (firstn 3 nfts)
          /\ List.length (topNfts wd) = Nat.min 3 (List.length nfts))
    /\ (provided ftLookup "fungible_tokens" = None
        \/ (exists fts e,
              provided ftLookup "fungible_tokens" = Some fts
              /\ map_throws (ft_entry P) (firstn 5 fts) = inl e) ->
        ftBalances wd = [])
    /\ (provided nftLookup "non_fungible_tokens" = None
        \/ (exists nfts e,
              provided nftLookup "non_fungible_tokens" = Some nfts
              /\ counts_of P nfts = inl e) ->
        nftCount wd = 0%float /\ topNfts wd = [])
    /\ (List.length (ftBalances wd) <= 5)%nat
    /\ (List.length (topNfts wd) <= 3)%nat.
Proof.
  intros Hv ftLookup nftLookup. exists (wallet_at P w 0 address).
  split; [now apply data_run |].
  cbn [wallet_at ftBalances nftCount topNfts].
  fold ftLookup. fold nftLookup.
  split; [| split; [| split; [| split; [| split]]]].
  - intros fts held Hfts Hheld.
    rewrite (getFtBalances_provided P _ fts Hfts), Hheld. js_step.
    split; [reflexivity |]. split.
    + rewrite (map_throws_length _ _ _ Hheld). apply length_firstn.
    + now apply map_throws_names with (P := P).
  - intros nfts cs Hnfts Hcs.
    rewrite (getNftHoldings_provided P _ nfts Hnfts), Hcs. js_step.
    split; [reflexivity |]. split.
    + unfold counts_of in Hcs. apply (map_throws_length _ _ _ Hcs).
    + split; [reflexivity |]. rewrite length_map. apply length_firstn.
  - intros [Hnone | (fts & e & Hfts & He)].
    + now apply getFtBalances_unprovided.
    + now rewrite (getFtBalances_provided P _ fts Hfts), He.
  - intros [Hnone | (nfts & e & Hnfts & He)].
    + now rewrite (getNftHoldings_unprovided P _ Hnone).
    + now rewrite (getNftHoldings_provided P _ nfts Hnfts), He.
  - apply getFtBalances_at_most_5.
  - apply getNftHoldings_at_most_3.
Qed.

(** Eight holdings and seven collections: five and three are kept, and the
    count is the sum over all seven, 42 (the three kept ones hold 7). *)
Lemma truncation_policy_witness :
  let w := Demo.scripted [Demo.replied 200 Demo.names_payload;
                          Demo.replied 200 Demo.balances_payload;
                          Demo.replied 200 Demo.balances_payload;
                          Demo.replied 200 Demo.balances_payload] in
  exists wd,
    fst (run (data Demo.demo_platform Demo.addr) w) = Json 200 (walletData_json wd)
    /\ map ft_name (ftBalances wd) = ["welshcorgicoin"; "leo"; "NOT"; "alex"; "usda"]
    /\ nftCount wd = 42%float
    /\ map nft_collection (topNfts wd)
       = ["megapont-robot-nft"; "bitcoin-monkeys"; "crashpunks-v2"]
    /\ List.length Demo.eight_tokens = 8%nat
    /\ List.length Demo.seven_collections = 7%nat
    /\ (total [4; 2; 1])%float = 7%float.
Proof.
  intros w.
  destruct (truncation_policy Demo.demo_platform w Demo.addr eq_refl)
    as (wd & Hrun & Hft & Hnft & _).
  destruct (Hft Demo.eight_tokens _ eq_refl eq_refl) as (Eheld & _ & Hnames).
  destruct (Hnft Demo.seven_collections _ eq_refl eq_refl)
    as (Ecount & _ & Etop & _).
  exists wd. rewrite Hrun, Eheld, Ecount, Etop.
  repeat split.
Defined.

(** ** The prompt (C7) *)

Lemma map_throws_ok_iff {A B} (f : A -> Throws B) (g : A -> bool) xs :
  (forall x, In x xs -> ((exists y, f x = inr y) <-> g x = true)) ->
  (exists ys, map_throws f xs = inr ys) <-> forallb g xs = true.
Proof.
  induction xs as [| x xs IH]; intros Hfg; cbn [map_throws forallb].
  - split; [reflexivity | intros _; now eexists].
  - pose proof (Hfg x (or_introl eq_refl)) as Hx.
    assert (Hrest : (exists ys, map_throws f xs = inr ys) <-> forallb g xs = true).
    { apply IH. intros x' Hin. apply Hfg. now right. }
    destruct (f x) as [e | y]; cbn [tbind].
    + split.
      * intros [ys E]. discriminate E.
      * intros H. apply andb_prop in H as [H _]. apply Hx in H.
        destruct H as [y E]. discriminate E.
    + assert (Hg : g x = true) by (apply Hx; now eexists).
      rewrite Hg. cbn [andb].
      destruct (map_throws f xs) as [e | ys]; cbn [tbind ok].
      * split.
        -- intros [ys E]. discriminate E.
        -- intros H. apply Hrest in H. destruct H as [ys E]. discriminate E.
      * split; [intros _; apply Hrest; now eexists | intros _; now eexists].
Qed.

(** Induction on a value, with the property at hand for the items of an
    array. *)
Lemma JsVal_items_ind (Q : JsVal -> Prop) :
  Q JUndef -> Q JNull -> (forall b, Q (JBool b)) -> (forall n, Q (JNum n)) ->
  (forall s, Q (JStr s)) ->
  (forall items, Forall Q items -> Q (JArr items)) ->
  (forall props, Q (JObj props)) ->
  forall v, Q v.
Proof.
  intros Hundef Hnull Hbool Hnum Hstr Harr Hobj.
  fix IH 1. intros v.
  destruct v as [ | | b | n | s | items | props].
  - exact Hundef.
  - exact Hnull.
  - apply Hbool.
  - apply Hnum.
  - apply Hstr.
  - apply Harr. induction items as [| x items IHitems]; constructor.
    + apply IH.
    + exact IHitems.
  - apply Hobj.
Qed.

(** A template literal prints exactly the printable values. *)
Lemma to_string_ok_iff P :
  forall v, (exists s, to_string P v = inr s) <-> printable v = true.
Proof.
  induction v as [ | | b | n | s | items Hitems | props] using JsVal_items_ind;
    cbn [to_string printable];
    try (split; [reflexivity | intros _; now eexists]).
  - destruct b; (split; [reflexivity | intros _; now eexists]).
  - rewrite <- (map_throws_ok_iff
                  (fun x => match x with
                            | JUndef | JNull => ok EmptyString
                            | _ => to_string P x
                            end)).
    + destruct (map_throws _ items) as [e | pieces]; cbn [tbind ok].
      * split; intros [x E]; discriminate E.
      * split; intros _; now eexists.
    + intros x Hin. rewrite Forall_forall in Hitems.
      specialize (Hitems x Hin).
      destruct x; try exact Hitems;
        (split; [reflexivity | intros _; now eexists]).
  - destruct (has_key "toString" props); cbn [negb].
    + split; [intros [s E]; discriminate E | discriminate].
    + split; [reflexivity | intros _; now eexists].
Qed.

Lemma buildImagePrompt_cases P wallet :
  (exists e, to_string P (display_name wallet) = inl e
             /\ buildImagePrompt P wallet = inl e)
  \/ (exists shown p,
        to_string P (display_name wallet) = inr shown
        /\ buildImagePrompt P wallet = inr p
        /\ startsWith prompt_head p = true).
Proof.
  unfold buildImagePrompt.
  destruct (to_string P (display_name wallet)) as [e | shown]; cbn [tbind ok].
  - left. now exists e.
  - right. eexists. eexists. split; [reflexivity |]. split; [reflexivity |].
    apply prefix_append.
Qed.




(** ** The payment gate of version 2.0.0 (C9, C6, C5) *)

Lemma new_Response_cases P image headers :
  (exists sent, sent_headers P headers = inr sent
                /\ new_Response P image headers = Binary image sent)
  \/ (exists e, sent_headers P headers = inl e
                /\ new_Response P image headers = Unhandled e).
Proof.
  unfold new_Response. destruct (sent_headers P headers) as [e | sent].
  - right. now exists e.
  - left. now exists sent.
Qed.

Lemma new_Response_status P image headers :
  status_code (new_Response P image headers) = 200%nat
  \/ status_code (new_Response P image headers) = 500%nat.
Proof.
  destruct (new_Response_cases P image headers)
    as [(sent & _ & ->) | (e & _ & ->)]; [now left | now right].
Qed.

Section Gate.

Variables (P : Platform) (env : V2.Bindings) (w : World) (address : string).
Hypothesis address_valid : valid_address address = true.

Lemma card_unpaid_run (xPayment : option string) :
  xPayment = None \/ xPayment = Some EmptyString ->
  run (V2.card P env address xPayment) w = (challenge_response P w address, []).
Proof.
  intros [-> | ->]; unfold run, V2.card; rewrite address_valid; reflexivity.
Qed.

Lemma card_paid_run (txid : string) :
  txid <> EmptyString ->
  run (V2.card P env address (Some txid)) w = paid_card P env w address txid.
Proof.
  intros Htx.
  assert (Ht : truthy (JStr txid) = true).
  { simpl. destruct (String.eqb_spec txid EmptyString); [contradiction | reflexivity]. }
  unfold run, V2.card, paid_card. rewrite address_valid.
  cbn [negb V2.header_value V2.opt_string V2.string_of]. rewrite Ht. cbn [negb].
  unfold V2.verifyPayment, bind, ret, do_fetch. cbv beta iota. cbn [List.length app].
  destruct (V2.valid (V2.verifyPayment_of P (fetch w 0 (Get (V2.tx_url txid)))));
    cbn [negb]; [| reflexivity].
  rewrite fetchWalletData_run. cbn [List.length app].
  destruct (buildImagePrompt P (wallet_at P w 1 address)) as [e | prompt];
    [reflexivity |].
  fold (api_key env). unfold V2.generateImage.
  destruct (String.eqb (api_key env) EmptyString); [reflexivity |].
  unfold bind, ret, do_fetch. cbv beta iota. cbn [List.length app lookups].
  destruct (V2.success (V2.generateImage_of _)); cbn [negb]; [| reflexivity].
  destruct (to_string P _) as [e | url]; [reflexivity |].
  cbv beta iota. cbn [List.length app].
  destruct (fetch w 6 _) as [e | imageResponse]; [reflexivity |].
  destruct (res_ok imageResponse); cbn [negb]; [| reflexivity].
  destruct (arrayBuffer imageResponse); reflexivity.
Qed.

Lemma paid_card_status txid :
  let verdict := V2.verifyPayment_of P (fetch w 0 (Get (V2.tx_url txid))) in
  let code := status_code (fst (paid_card P env w address txid)) in
  (V2.valid verdict = false /\ code = 403%nat)
  \/ (V2.valid verdict = true /\ (code = 500%nat \/ code = 200%nat)).
Proof.
  intros verdict code. subst code. unfold paid_card. fold verdict.
  destruct (V2.valid verdict); cbn [negb]; [right | left; now split].
  split; [reflexivity |].
  destruct (buildImagePrompt P _) as [e | prompt]; [now left |].
  destruct (String.eqb (api_key env) EmptyString); [now left |].
  destruct (V2.success _); cbn [negb fst]; [| now left].
  destruct (to_string P _) as [e | url]; [now left |]. cbn [fst].
  destruct (fetch w 6 _) as [e | download]; [now left |].
  destruct (res_ok download); cbn [negb]; [| now left].
  destruct (arrayBuffer download) as [e | image]; [now left |].
  destruct (new_Response_status P image
              (V2.image_headers address (bnsName (wallet_at P w 1 address))))
    as [H | H]; rewrite H; [now right | now left].
Qed.

Lemma paid_card_first_call txid :
  hd_error (snd (paid_card P env w address txid)) = Some (Get (V2.tx_url txid)).
Proof.
  unfold paid_card.
  destruct (V2.valid _); cbn [negb]; [| reflexivity].
  destruct (buildImagePrompt P _) as [e | prompt]; [reflexivity |].
  destruct (String.eqb (api_key env) EmptyString); [reflexivity |].
  destruct (V2.success _); cbn [negb]; [| reflexivity].
  destruct (to_string P _); reflexivity.
Qed.

(** C9, amended.  On [/card/:address] with a valid address, a request whose
    [X-Payment] header is any non-empty string, well-formed or not, is never
    answered 402: its first upstream call is the lookup of the normalized
    claim, and when that verdict is invalid the answer is 403 with the
    verdict's reason as [details], after that one call.  A header that is
    absent or empty gets the 402 challenge. *)
Theorem present_claim_is_verified (txid : string) :
  txid <> EmptyString ->
  let verdict := V2.verifyPayment_of P (fetch w 0 (Get (V2.tx_url txid))) in
  let answer := run (V2.card P env address (Some txid)) w in
  status_code (fst answer) <> 402%nat
  /\ hd_error (snd answer) = Some (Get (V2.tx_url txid))
  /\ (V2.valid verdict = false ->
      exists reason,
        V2.error verdict = Some reason
        /\ answer
           = (Json 403 (JObj [("error", JStr "Payment verification failed");
                              ("details", JStr reason)]),
              [Get (V2.tx_url txid)]))
  /\ run (V2.card P env address None) w = (challenge_response P w address, [])
  /\ run (V2.card P env address (Some EmptyString)) w
     = (challenge_response P w address, []).
Proof.
  intros Htx verdict answer. subst answer.
  rewrite (card_paid_run txid Htx).
  split; [| split; [| split; [| split]]].
  - destruct (paid_card_status txid) as [[_ Hc] | [_ [Hc | Hc]]];
      rewrite Hc; discriminate.
  - apply paid_card_first_call.
  - intros Hinv. unfold paid_card. fold verdict. rewrite Hinv. cbn [negb].
    destruct (verifyPayment_of_cases P (fetch w 0 (Get (V2.tx_url txid))))
      as [[_ E] | [_ [reason E]]]; fold verdict in E.
    + rewrite E in Hinv. discriminate.
    + exists reason. unfold rejection_response. rewrite E. split; reflexivity.
  - apply card_unpaid_run. now left.
  - apply card_unpaid_run. now right.
Qed.

(** C6, amended.  On [/card/:address] of version 2.0.0, after the address
    check, the route branches on the payment header first.  Without one the
    402 challenge is answered with no upstream call.  With one, the
    transaction lookup comes first; an invalid verdict ends the request
    there, and only after a valid verdict are the four wallet lookups made
    and the prompt built, before the generator is called with that prompt. *)
Theorem gate_verifies_before_aggregating (txid : string) :
  txid <> EmptyString ->
  let verdict := V2.verifyPayment_of P (fetch w 0 (Get (V2.tx_url txid))) in
  let calls := snd (run (V2.card P env address (Some txid)) w) in
  run (V2.card P env address None) w = (challenge_response P w address, [])
  /\ (V2.valid verdict = false -> calls = [Get (V2.tx_url txid)])
  /\ (V2.valid verdict = true ->
      exists rest,
        calls = Get (V2.tx_url txid) :: (lookups address ++ rest)%list
        /\ (rest = []
            \/ exists prompt download,
                 buildImagePrompt P (wallet_at P w 1 address) = inr prompt
                 /\ rest = V2.openai_call (api_key env) prompt :: download)).
Proof.
  intros Htx verdict calls. subst calls.
  rewrite (card_paid_run txid Htx).
  unfold paid_card. fold verdict.
  split; [apply card_unpaid_run; now left |].
  split; intros Hverdict; rewrite Hverdict; cbn [negb]; [reflexivity |].
  destruct (buildImagePrompt P (wallet_at P w 1 address)) as [e | prompt].
  { exists []. split; [now rewrite app_nil_r | now left]. }
  destruct (String.eqb (api_key env) EmptyString).
  { exists []. split; [now rewrite app_nil_r | now left]. }
  destruct (V2.success _); cbn [negb snd].
  - destruct (to_string P _) as [e | url]; cbn [snd];
      (eexists; split; [reflexivity | right; eexists; eexists; now split]).
  - eexists. split; [reflexivity | right; eexists; eexists; now split].
Qed.

(** When the generator rejects the call (or is not configured) after a
    valid payment, the 500 carries the record, the prompt and the payment
    flag. *)
Lemma generator_rejection_flags_payment (txid prompt : string) :
  txid <> EmptyString ->
  let verdict := V2.verifyPayment_of P (fetch w 0 (Get (V2.tx_url txid))) in
  let record := wallet_at P w 1 address in
  let imageResult :=
    V2.generateImage_of (fetch w 5 (V2.openai_call (api_key env) prompt)) in
  let answer := fst (run (V2.card P env address (Some txid)) w) in
  V2.valid verdict = true ->
  buildImagePrompt P record = inr prompt ->
  api_key env = EmptyString \/ V2.success imageResult = false ->
  status_code answer = 500%nat
  /\ body_field answer "walletData" = walletData_json record
  /\ body_field answer "prompt" = JStr prompt
  /\ body_field answer "payment_received" = JBool true
  /\ body_field answer "payment_txid" = JStr txid.
Proof.
  intros Htx verdict record imageResult answer Hverdict Hprompt Hfail.
  subst answer. rewrite (card_paid_run txid Htx).
  unfold paid_card. fold verdict. rewrite Hverdict. cbn [negb].
  fold record. rewrite Hprompt.
  destruct (String.eqb_spec (api_key env) EmptyString) as [Hkey | Hkey].
  - repeat split.
  - destruct Hfail as [Hfail | Hfail]; [contradiction |].
    fold imageResult. rewrite Hfail. repeat split.
Qed.

End Gate.

(** C9, as the claim states it, fails: an [X-Payment] header whose value is
    the empty string is answered with the 402 challenge, and no
    verification lookup is made, although the transaction it could be
    checked against is there. *)
Lemma empty_claim_is_challenged :
  run (V2.card Demo.demo_platform Demo.env2 Demo.addr (Some EmptyString))
      (Demo.scripted [Demo.replied 200 Demo.paid_tx])
  = (Json 402 (V2.challenge Demo.addr "3b241101-e2bb-4255-8caf-4136c566a962"
                 "1767226200000ms"),
     []).
Proof. reflexivity. Qed.

Lemma present_claim_is_verified_witness :
  run (V2.card Demo.demo_platform Demo.env2 Demo.addr (Some "zz")) (Demo.scripted [])
  = (Json 403
       (JObj [("error", JStr "Payment verification failed");
              ("details", JStr "Verification failed: TypeError: fetch failed")]),
     [Get "https://api.hiro.so/extended/v1/tx/0xzz"]).
Proof.
  assert (Htx : "zz" <> EmptyString) by discriminate.
  destruct (present_claim_is_verified Demo.demo_platform Demo.env2
              (Demo.scripted []) Demo.addr eq_refl "zz" Htx)
    as (_ & _ & H403 & _).
  destruct (H403 eq_refl) as (reason & Hreason & Hrun).
  rewrite Hrun. simpl in Hreason. injection Hreason as <-. reflexivity.
Defined.

(** C6, as the claim states it, fails: without a payment header the 402
    challenge is sent after no upstream call at all, and with a header that
    does not verify the 403 is sent after the transaction lookup alone; in
    neither case has a wallet lookup been made, although all four would
    have answered. *)
Lemma challenge_precedes_aggregation :
  let w := Demo.scripted [Demo.replied 404 JNull;
                          Demo.replied 200 Demo.names_payload;
                          Demo.replied 200 Demo.balances_payload;
                          Demo.replied 200 Demo.balances_payload;
                          Demo.replied 200 Demo.balances_payload] in
  snd (run (V2.card Demo.demo_platform Demo.env2 Demo.addr None) w) = []
  /\ status_code
       (fst (run (V2.card Demo.demo_platform Demo.env2 Demo.addr None) w))
     = 402%nat
  /\ run (V2.card Demo.demo_platform Demo.env2 Demo.addr (Some "0xabc")) w
     = (Json 403
          (JObj [("error", JStr "Payment verification failed");
                 ("details", JStr "Transaction not found")]),
        [Get "https://api.hiro.so/extended/v1/tx/0xabc"]).
Proof. repeat split. Qed.

Lemma gate_verifies_before_aggregating_witness :
  exists prompt,
    buildImagePrompt Demo.demo_platform (degraded Demo.addr) = inr prompt
    /\ snd (run (V2.card Demo.demo_platform Demo.env2 Demo.addr (Some "abc"))
                (Demo.scripted [Demo.replied 200 Demo.paid_tx]))
       = Get "https://api.hiro.so/extended/v1/tx/0xabc"
           :: (lookups Demo.addr ++ [V2.openai_call "sk-demo" prompt])%list.
Proof.
  assert (Htx : "abc" <> EmptyString) by discriminate.
  destruct (gate_verifies_before_aggregating Demo.demo_platform Demo.env2
              (Demo.scripted [Demo.replied 200 Demo.paid_tx]) Demo.addr
              eq_refl "abc" Htx)
    as (_ & _ & Hvalid).
  destruct (Hvalid eq_refl) as (rest & Hcalls & _).
  eexists. split; [vm_compute; reflexivity |].
  rewrite Hcalls. f_equal. f_equal.
  apply (f_equal (fun l => skipn 5 l)) in Hcalls. vm_compute in Hcalls.
  rewrite <- Hcalls. vm_compute. reflexivity.
Defined.

(** C5: the code at the failing input.  The payment verifies and the
    generator returns an image URL, but the download of that URL is answered
    404: the 500 names the URL and the record and carries neither the
    prompt nor [payment_received] nor [payment_txid].  In the same request
    with the generator rejecting the call instead, the 500 carries all of
    them. *)
Theorem download_failure_omits_payment_flag :
  let generated :=
    Demo.replied 200 (JObj [("data", JArr [JObj [("url", JStr "https://img.example/1.png")]])]) in
  let rejected :=
    Demo.replied 400 (JObj [("error", JObj [("message", JStr "Billing hard limit has been reached")])]) in
  let upstream generator :=
    Demo.scripted [Demo.replied 200 Demo.paid_tx;
                   Demo.replied 200 Demo.names_payload;
                   Demo.replied 200 Demo.balances_payload;
                   Demo.replied 200 Demo.balances_payload;
                   Demo.replied 200 Demo.balances_payload;
                   generator;
                   Demo.bytes_reply 404 []] in
  let card w :=
    fst (run (V2.card Demo.demo_platform Demo.env2 Demo.addr (Some "0xabc")) w) in
  (status_code (card (upstream generated)) = 500%nat
   /\ body_field (card (upstream generated)) "error"
      = JStr "Failed to fetch generated image"
   /\ body_field (card (upstream generated)) "imageUrl"
      = JStr "https://img.example/1.png"
   /\ body_field (card (upstream generated)) "prompt" = JUndef
   /\ body_field (card (upstream generated)) "payment_received" = JUndef
   /\ body_field (card (upstream generated)) "payment_txid" = JUndef)
  /\ (status_code (card (upstream rejected)) = 500%nat
      /\ body_field (card (upstream rejected)) "error"
         = JStr "Image generation failed"
      /\ body_field (card (upstream rejected)) "details"
         = JStr "Billing hard limit has been reached"
      /\ body_field (card (upstream rejected)) "payment_received" = JBool true
      /\ body_field (card (upstream rejected)) "payment_txid" = JStr "0xabc").
Proof. vm_compute. repeat split. Qed.

(** ** The challenge and the preview (C1) *)

Lemma card_v1_run P env w address :
  valid_address address = true ->
  run (V1.card P env address) w = forwarded_card P env w address.
Proof.
  intros Hv. unfold run, V1.card, forwarded_card. rewrite Hv. cbn [negb].
  unfold bind. rewrite fetchWalletData_run.
  destruct (buildImagePrompt P _) as [e | prompt]; [reflexivity |].
  unfold V1.generateImage, do_fetch, ret. cbn [List.length app lookups].
  destruct (fetch w 4 _) as [e | imageRes]; [reflexivity |].
  destruct (status imageRes =? 402)%nat.
  - destruct (json imageRes); reflexivity.
  - destruct (res_ok imageRes); cbn [negb]; [| reflexivity].
    destruct (arrayBuffer imageRes); reflexivity.
Qed.

(** The generator call of the paid route carries the prompt built from the
    record of that request. *)
Lemma paid_card_posts P env w address txid url headers body :
  In (Post url headers body) (snd (paid_card P env w address txid)) ->
  exists prompt,
    buildImagePrompt P (wallet_at P w 1 address) = inr prompt
    /\ Post url headers body = V2.openai_call (api_key env) prompt.
Proof.
  unfold paid_card. intros Hin.
  destruct (V2.valid _); cbn [negb] in Hin.
  2:{ destruct Hin as [E | []]. discriminate E. }
  destruct (buildImagePrompt P (wallet_at P w 1 address)) as [e | prompt].
  { cbn [snd lookups In] in Hin.
    repeat (destruct Hin as [E | Hin]; [discriminate E |]). destruct Hin. }
  exists prompt. split; [reflexivity |].
  destruct (String.eqb (api_key env) EmptyString).
  { cbn [snd lookups In] in Hin.
    repeat (destruct Hin as [E | Hin]; [discriminate E |]). destruct Hin. }
  destruct (V2.success _); cbn [negb] in Hin.
  - destruct (to_string P _) as [e | u]; cbn [snd lookups In app] in Hin;
      repeat (destruct Hin as [E | Hin]; [try discriminate E |]);
      try destruct Hin; now symmetry.
  - cbn [snd lookups In app] in Hin.
    repeat (destruct Hin as [E | Hin]; [try discriminate E |]);
      try destruct Hin; now symmetry.
Qed.

(** C1, as the claim states it, fails: for a valid address and no payment
    header the 402 body of version 2.0.0 has neither a [walletData] nor a
    [prompt] field, while [/prompt/:address] in the same world returns
    both. *)
Lemma challenge_embeds_no_wallet_record :
  let w := Demo.scripted [Demo.replied 200 Demo.names_payload;
                          Demo.replied 200 Demo.balances_payload;
                          Demo.replied 200 Demo.balances_payload;
                          Demo.replied 200 Demo.balances_payload] in
  let challenge := fst (run (V2.card Demo.demo_platform Demo.env2 Demo.addr None) w) in
  let preview := fst (run (prompt Demo.demo_platform Demo.addr) w) in
  status_code challenge = 402%nat
  /\ body_field challenge "walletData" = JUndef
  /\ body_field challenge "prompt" = JUndef
  /\ is_nullish (body_field preview "walletData") = false
  /\ is_nullish (body_field preview "prompt") = false.
Proof. vm_compute. repeat split. Qed.

(** C1, amended.  For a valid address:
    - in version 2.0.0, [/card/:address] without a payment header answers
      the 402 challenge, which names the payment target, a nonce and an
      expiry and embeds neither the wallet record nor the prompt (none has
      been computed);
    - when the prompt of the record can be built, [/prompt/:address]
      answers 200 with the record and that prompt, and when it cannot (the
      name is not printable) the preview ends with the exception, as does
      [/card/:address] of version 1.0.0, and the paid route of version
      2.0.0 never calls the generator for that record;
    - the prompt posted to the generator after a valid payment is the
      prompt [/prompt/:address] returns whenever both routes aggregate the
      same record;
    - in version 1.0.0, where the 402 is the generator's own, passed
      through, the 402 body embeds the wallet record and the prompt, and
      these are the [walletData] and [prompt] that [/prompt/:address]
      returns for the same lookups. *)
Theorem challenge_and_preview (P : Platform) (env2 : V2.Bindings)
        (env1 : V1.Bindings) (w : World) (address : string) :
  valid_address address = true ->
  let preview := fst (run (prompt P address) w) in
  let record := wallet_at P w 0 address in
  run (V2.card P env2 address None) w = (challenge_response P w address, [])
  /\ body_field (challenge_response P w address) "walletData" = JUndef
  /\ body_field (challenge_response P w address) "prompt" = JUndef
  /\ body_field (challenge_response P w address) "nonce" = JStr (randomUUID w)
  /\ (forall p, buildImagePrompt P record = inr p ->
        status_code preview = 200%nat
        /\ body_field preview "walletData" = walletData_json record
        /\ body_field preview "prompt" = JStr p)
  /\ (forall e, buildImagePrompt P record = inl e ->
        preview = Unhandled e
        /\ fst (run (V1.card P env1 address) w) = Unhandled e
        /\ forall w' txid,
             txid <> EmptyString ->
             wallet_at P w' 1 address = record ->
             posts (snd (run (V2.card P env2 address (Some txid)) w')) = [])
  /\ (forall w' txid url headers body,
        txid <> EmptyString ->
        wallet_at P w' 1 address = record ->
        In (Post url headers body)
           (snd (run (V2.card P env2 address (Some txid)) w')) ->
        opt_get body "prompt" = body_field preview "prompt")
  /\ (forall p res info,
        buildImagePrompt P record = inr p ->
        fetch w 4 (V1.stx402_call (V1.STX402_BASE env1) p) = Fulfilled res ->
        status res = 402%nat ->
        json res = inr info ->
        status_code (fst (run (V1.card P env1 address) w)) = 402%nat
        /\ body_field (fst (run (V1.card P env1 address) w)) "walletData"
           = body_field preview "walletData"
        /\ body_field (fst (run (V1.card P env1 address) w)) "prompt"
           = body_field preview "prompt").
Proof.
  intros Hv preview record. subst preview.
  rewrite (prompt_run P w address Hv). fold record. cbn [fst].
  split; [apply card_unpaid_run; [exact Hv | now left] |].
  do 3 (split; [reflexivity |]).
  split; [| split; [| split]].
  - intros p Hp. rewrite Hp. repeat split.
  - intros e He. rewrite He. split; [reflexivity |]. split.
    + rewrite (card_v1_run P env1 w address Hv). unfold forwarded_card.
      fold record. now rewrite He.
    + intros w' txid Htx Hrec.
      rewrite (card_paid_run P env2 w' address Hv txid Htx).
      unfold paid_card. rewrite Hrec, He.
      now destruct (V2.valid _).
  - intros w' txid url headers body Htx Hrec Hin.
    rewrite (card_paid_run P env2 w' address Hv txid Htx) in Hin.
    destruct (paid_card_posts _ _ _ _ _ _ _ _ Hin) as (p & Hp & E).
    rewrite Hrec in Hp. rewrite Hp. injection E as _ _ ->. reflexivity.
  - intros p res info Hp Hres Hstatus Hjson.
    rewrite (card_v1_run P env1 w address Hv). unfold forwarded_card.
    fold record. rewrite Hp, Hres, Hstatus, Hjson.
    cbn [Nat.eqb fst status_code body_field].
    unfold V1.payment_required. cbn [opt_get].
    split; [reflexivity |]. split.
    + rewrite lookup_set_prop_other by reflexivity.
      now rewrite lookup_set_prop_same.
    + now rewrite lookup_set_prop_same.
Qed.

Lemma challenge_and_preview_witness :
  let w := Demo.scripted [Demo.replied 200 Demo.names_payload;
                          Demo.replied 200 Demo.balances_payload;
                          Demo.replied 200 Demo.balances_payload;
                          Demo.replied 200 Demo.balances_payload;
                          Demo.replied 402 (JObj [("payment", JObj [("price", JStr "0.001 STX")])])] in
  body_field (fst (run (V1.card Demo.demo_platform Demo.env1 Demo.addr) w)) "prompt"
  = body_field (fst (run (prompt Demo.demo_platform Demo.addr) w)) "prompt"
  /\ run (V2.card Demo.demo_platform Demo.env2 Demo.addr None) w
     = (challenge_response Demo.demo_platform w Demo.addr, []).
Proof.
  intros w.
  destruct (challenge_and_preview Demo.demo_platform Demo.env2 Demo.env1 w
              Demo.addr eq_refl)
    as (Hchallenge & _ & _ & _ & _ & _ & _ & Hv1).
  destruct (Hv1 _ _ _ eq_refl eq_refl eq_refl eq_refl) as (_ & _ & Hprompt).
  split; [exact Hprompt | exact Hchallenge].
Defined.

(** * Further properties of the code *)

(** ** Splitting keys *)

Lemma append_nil_r (s : string) : s ++ EmptyString = s.
Proof. induction s as [| c s IH]; simpl; [reflexivity | now rewrite IH]. Qed.

Lemma append_assoc (a b c : string) : (a ++ b) ++ c = a ++ (b ++ c).
Proof. induction a as [| x a IH]; simpl; [reflexivity | now rewrite IH]. Qed.

Lemma rev_string_twice (acc cur a : string) :
  rev_string acc (rev_string cur a) = rev_string (a ++ acc) cur.
Proof.
  revert acc cur. induction a as [| c a IH]; intros acc cur; simpl.
  - reflexivity.
  - now rewrite IH.
Qed.

Lemma lacks_append c a b : lacks c (a ++ b) = lacks c a && lacks c b.
Proof.
  unfold lacks. induction a as [| x a IH]; simpl; [reflexivity |].
  rewrite IH. now rewrite andb_assoc.
Qed.

Lemma prefix_other_head c0 rest x tail :
  Ascii.eqb x c0 = false ->
  String.prefix (String c0 rest) (String x tail) = false.
Proof.
  intros Hx. simpl. destruct (ascii_dec c0 x) as [E | _]; [| reflexivity].
  subst x. now rewrite Ascii.eqb_refl in Hx.
Qed.

Lemma split_go_skip sep skipped cur b :
  split_go sep (String.length skipped) cur (skipped ++ b) = split_go sep 0 cur b.
Proof.
  induction skipped as [| x skipped IH]; simpl.
  - now destruct b.
  - exact IH.
Qed.

(** A piece without the first character of the separator is not cut. *)
Lemma split_go_lacks c0 rest cur s :
  lacks c0 s = true ->
  split_go (String c0 rest) 0 cur s = [rev_string EmptyString (rev_string cur s)].
Proof.
  revert cur. induction s as [| x s IH]; intros cur Hs.
  - reflexivity.
  - unfold lacks in Hs. simpl in Hs. apply andb_prop in Hs as [Hx Hs].
    apply negb_true_iff in Hx.
    cbn [split_go]. rewrite (prefix_other_head c0 rest x s Hx).
    now rewrite IH.
Qed.

(** The first separator after a piece without its first character cuts
    there. *)
Lemma split_go_cut c0 rest cur a b :
  lacks c0 a = true ->
  split_go (String c0 rest) 0 cur (a ++ String c0 rest ++ b)
  = rev_string EmptyString (rev_string cur a)
      :: split_go (String c0 rest) 0 EmptyString b.
Proof.
  revert cur. induction a as [| x a IH]; intros cur Ha.
  - cbn [append rev_string split_go].
    change (String c0 (rest ++ b)) with (String c0 rest ++ b).
    rewrite prefix_append. cbn [append String.length Nat.sub].
    rewrite Nat.sub_0_r. now rewrite split_go_skip.
  - unfold lacks in Ha. simpl in Ha. apply andb_prop in Ha as [Hx Ha].
    apply negb_true_iff in Hx.
    cbn [append split_go]. rewrite (prefix_other_head c0 rest x _ Hx).
    now rewrite IH.
Qed.

Lemma split_pair c0 rest a b :
  lacks c0 a = true -> lacks c0 b = true ->
  split (String c0 rest) (a ++ String c0 rest ++ b) = [a; b].
Proof.
  intros Ha Hb. unfold split.
  rewrite (split_go_cut c0 rest EmptyString a b Ha).
  rewrite (split_go_lacks c0 rest EmptyString b Hb).
  rewrite !rev_string_twice. cbn [rev_string]. now rewrite !append_nil_r.
Qed.

Lemma split_single c0 rest a :
  lacks c0 a = true -> split (String c0 rest) a = [a].
Proof.
  intros Ha. unfold split. rewrite (split_go_lacks c0 rest EmptyString a Ha).
  rewrite rev_string_twice. cbn [rev_string]. now rewrite append_nil_r.
Qed.

Lemma take_length n s : (String.length (take n s) <= n)%nat.
Proof.
  revert s. induction n as [| n IH]; intros s; simpl; [lia |].
  destruct s as [| c s]; simpl; [lia |]. specialize (IH s). lia.
Qed.

Lemma take_length_exact n s :
  (n <= String.length s)%nat -> String.length (take n s) = n.
Proof.
  revert s. induction n as [| n IH]; intros s H; simpl; [reflexivity |].
  destruct s as [| c s]; simpl in *; [lia |]. rewrite IH; lia.
Qed.

Lemma drop_length n s : String.length (drop n s) = (String.length s - n)%nat.
Proof.
  revert s. induction n as [| n IH]; intros s; simpl; [lia |].
  destruct s as [| c s]; simpl; [reflexivity | apply IH].
Qed.

Lemma take_nonempty n s :
  s <> EmptyString -> take (S n) s <> EmptyString.
Proof. destruct s; [contradiction | discriminate]. Qed.

Lemma str_or_nonempty x dflt :
  dflt <> EmptyString -> str_or x dflt <> EmptyString.
Proof.
  intros Hd. unfold str_or. destruct x as [s |]; [| exact Hd].
  destruct (String.eqb_spec s EmptyString); [exact Hd | assumption].
Qed.

Lemma str_or_some s dflt : s <> EmptyString -> str_or (Some s) dflt = s.
Proof.
  intros Hs. unfold str_or.
  destruct (String.eqb_spec s EmptyString); [contradiction | reflexivity].
Qed.

(** ** Names of holdings and collections *)

Lemma ft_entry_fields P key ft t :
  ft_entry P (key, ft) = inr t ->
  ft_name t = str_or (nth_error (split "::" key) 1) "Token"
  /\ ft_symbol t
     = str_or (option_map (take 6) (nth_error (split "::" key) 1)) "TKN".
Proof.
  unfold ft_entry.
  destruct (get ft "balance") as [x | b]; cbn [tbind]; [discriminate |].
  destruct (BigInt P (or_else b (JStr "0"))) as [x | z]; cbn [tbind];
    [discriminate |].
  intros E. inversion E. now split.
Qed.

(** X1.  A fungible holding whose key is [contract::asset] (no colon in
    either part, [asset] not empty) is named [asset], and its symbol is the
    first six characters of [asset]. *)
Theorem ft_entry_named_after_asset (P : Platform) (contract asset : string)
        (ft : JsVal) (t : FtBalance) :
  lacks ":" contract = true ->
  lacks ":" asset = true ->
  asset <> EmptyString ->
  ft_entry P (contract ++ "::" ++ asset, ft) = inr t ->
  ft_name t = asset /\ ft_symbol t = take 6 asset.
Proof.
  intros Hc Ha Hne E.
  destruct (ft_entry_fields P _ ft t E) as [Hn Hs].
  rewrite (split_pair ":" ":" contract asset Hc Ha) in Hn, Hs.
  cbn [nth_error option_map] in Hn, Hs.
  rewrite Hn, Hs. split.
  - now apply str_or_some.
  - apply str_or_some. now apply take_nonempty.
Qed.

Lemma ft_entry_named_after_asset_witness :
  map_throws (ft_entry Demo.demo_platform)
             [Demo.token "SP3NE50GEXFG9SZGTT51P40X2CKYSZ5CC4ZTZ7A2G.welshcorgicoin-token"
                         "welshcorgicoin" "1500000"]
  = inr [ {| ft_symbol := "welshc"; ft_balance := "1.50";
             ft_name := "welshcorgicoin" |} ].
Proof.
  destruct (ft_entry Demo.demo_platform
              (Demo.token "SP3NE50GEXFG9SZGTT51P40X2CKYSZ5CC4ZTZ7A2G.welshcorgicoin-token"
                          "welshcorgicoin" "1500000")) as [e | t] eqn:E;
    [discriminate E |].
  destruct (ft_entry_named_after_asset Demo.demo_platform
              "SP3NE50GEXFG9SZGTT51P40X2CKYSZ5CC4ZTZ7A2G.welshcorgicoin-token"
              "welshcorgicoin" _ t eq_refl eq_refl ltac:(discriminate) E)
    as [Hn Hs].
  destruct t as [sym bal nm]. simpl in Hn, Hs. subst sym nm.
  vm_compute in E. injection E as <-. reflexivity.
Defined.

(** X2.  A collection whose key is [address.contract::asset] (no dot or
    colon in [address] and [contract], no colon in [asset], [contract] and
    [asset] not empty) is shown with collection [contract] and name
    [asset]. *)
Theorem nft_entry_named_after_contract (addr contract asset : string) (nft : JsVal) :
  lacks ":" addr = true -> lacks "." addr = true ->
  lacks ":" contract = true -> lacks "." contract = true ->
  lacks ":" asset = true ->
  contract <> EmptyString -> asset <> EmptyString ->
  nft_entry (addr ++ "." ++ contract ++ "::" ++ asset, nft)
  = {| nft_name := asset; nft_collection := contract |}.
Proof.
  intros Hac Had Hcc Hcd Hsc Hc Hs.
  assert (Hid : lacks ":" (addr ++ "." ++ contract) = true).
  { rewrite !lacks_append, Hac, Hcc. reflexivity. }
  unfold nft_entry.
  replace (addr ++ "." ++ contract ++ "::" ++ asset)
    with ((addr ++ "." ++ contract) ++ "::" ++ asset)
    by (now rewrite !append_assoc).
  rewrite (split_pair ":" ":" _ asset Hid Hsc). cbn [nth_error].
  rewrite (split_pair "." EmptyString addr contract Had Hcd). cbn [nth_error].
  now rewrite !str_or_some.
Qed.

Lemma nft_entry_named_after_contract_witness :
  nft_entry ("SP3D6PV2ACBPEKYJTCMH7HEN02KP87QSP8KTEH335.megapont-robot-nft::Megapont-Robot",
             JObj [("count", JStr "4")])
  = {| nft_name := "Megapont-Robot"; nft_collection := "megapont-robot-nft" |}.
Proof.
  exact (nft_entry_named_after_contract
           "SP3D6PV2ACBPEKYJTCMH7HEN02KP87QSP8KTEH335" "megapont-robot-nft"
           "Megapont-Robot" _ eq_refl eq_refl eq_refl eq_refl eq_refl
           ltac:(discriminate) ltac:(discriminate)).
Defined.

Lemma map_throws_Forall {A B} (f : A -> Throws B) (Q : B -> Prop) xs ys :
  (forall x y, f x = inr y -> Q y) ->
  map_throws f xs = inr ys -> Forall Q ys.
Proof.
  intros Hf. revert ys. induction xs as [| x xs IH]; intros ys; simpl.
  - intros E. inversion E. constructor.
  - destruct (f x) as [e | y] eqn:Ex; simpl; [discriminate |].
    destruct (map_throws f xs) as [e | ys']; simpl; [discriminate |].
    intros E. inversion E. constructor; [now apply (Hf x) | now apply IH].
Qed.

Lemma ft_entry_labelled P e t : ft_entry P e = inr t -> ft_labelled t.
Proof.
  destruct e as [key ft]. intros E.
  destruct (ft_entry_fields P key ft t E) as [Hn Hs].
  unfold ft_labelled. rewrite Hn, Hs.
  destruct (nth_error (split "::" key) 1) as [s |]; cbn [option_map].
  - destruct (String.eqb_spec s EmptyString) as [-> | Hne].
    + repeat split; try discriminate; [cbn; lia | now right].
    + rewrite (str_or_some s) by assumption.
      rewrite (str_or_some (take 6 s)) by now apply take_nonempty.
      repeat split; [assumption | now apply take_nonempty
                     | apply take_length | now left].
  - repeat split; try discriminate; [cbn; lia | now right].
Qed.

(** X3.  However a lookup settles, every holding of the record has a
    non-empty name and a symbol of one to six characters, which is the
    first six characters of the name unless both are the defaults Token and
    TKN; every collection shown has a non-empty name and a non-empty
    collection. *)
Theorem record_labels_never_empty (P : Platform) (r : FetchResult) :
  Forall ft_labelled (getFtBalances_of P r)
  /\ Forall (fun n => nft_name n <> EmptyString
                      /\ nft_collection n <> EmptyString)
            (top (getNftHoldings_of P r)).
Proof.
  split.
  - destruct (provided r "fungible_tokens") as [fts |] eqn:E.
    + rewrite (getFtBalances_provided P r fts E).
      destruct (map_throws (ft_entry P) (firstn 5 fts)) as [e | held] eqn:Eh;
        js_step; [constructor |].
      apply (map_throws_Forall (ft_entry P) ft_labelled _ _
               (ft_entry_labelled P) Eh).
    + rewrite (getFtBalances_unprovided P r E). constructor.
  - destruct (provided r "non_fungible_tokens") as [nfts |] eqn:E.
    + rewrite (getNftHoldings_provided P r nfts E).
      destruct (counts_of P nfts) as [e | cs]; js_step; [constructor |].
      apply Forall_map, Forall_forall. intros [key nft] _.
      unfold nft_entry. cbn [nft_name nft_collection].
      split; apply str_or_nonempty; discriminate.
    + rewrite (getNftHoldings_unprovided P r E). constructor.
Qed.

(** ** The BNS name *)

Lemma truthy_or_else a b : truthy b = true -> truthy (or_else a b) = true.
Proof. intros Hb. unfold or_else. now destruct (truthy a) eqn:E. Qed.

(** X4.  [getBnsName] returns [null] or a truthy value, never an empty
    string or [undefined].  For a 2xx payload that is an object it returns
    [null] when [names] is missing or an empty array, and the first name
    when [names] is an array starting with a non-empty string. *)
Theorem getBnsName_first_name (res : HttpResponse) (props : list (string * JsVal)) :
  res_ok res = true ->
  json res = inr (JObj props) ->
  (lookup "names" props = JUndef -> getBnsName_of (Fulfilled res) = JNull)
  /\ (lookup "names" props = JArr [] -> getBnsName_of (Fulfilled res) = JNull)
  /\ (forall n rest,
        n <> EmptyString ->
        lookup "names" props = JArr (JStr n :: rest) ->
        getBnsName_of (Fulfilled res) = JStr n)
  /\ (forall r, getBnsName_of r = JNull \/ truthy (getBnsName_of r) = true).
Proof.
  intros Hok Hjson.
  assert (E : getBnsName_of (Fulfilled res)
              = or_else (opt_index0 (lookup "names" props)) JNull).
  { unfold getBnsName_of. js_step. now rewrite Hok, Hjson. }
  rewrite E.
  split; [intros ->; reflexivity |].
  split; [intros ->; reflexivity |].
  split.
  - intros n rest Hn ->. unfold or_else. cbn.
    destruct (String.eqb_spec n EmptyString); [contradiction | reflexivity].
  - intros r. unfold getBnsName_of.
    destruct r as [e | res']; js_step; [now left |].
    destruct (res_ok res'); js_step; [| now left].
    destruct (json res') as [e | data]; js_step; [now left |].
    destruct (get data "names") as [e | names]; js_step; [now left |].
    unfold or_else. destruct (truthy (opt_index0 names)) eqn:T;
      [now right | now left].
Qed.

Lemma getBnsName_first_name_witness :
  getBnsName_of (Demo.replied 200 Demo.names_payload) = JStr "whoabuddy.btc".
Proof.
  destruct (getBnsName_first_name
              {| status := 200; json := inr Demo.names_payload;
                 arrayBuffer := inr [] |}
              _ eq_refl eq_refl)
    as (_ & _ & Hfirst & _).
  apply (Hfirst "whoabuddy.btc" []); [discriminate | reflexivity].
Defined.

(** ** Valid addresses *)

Lemma all_chars_impl (p q : ascii -> bool) s :
  (forall c, p c = true -> q c = true) ->
  all_chars p s = true -> all_chars q s = true.
Proof.
  intros Hpq. induction s as [| c s IH]; simpl; [reflexivity |].
  intros H. apply andb_prop in H as [Hc Hs].
  now rewrite (Hpq c Hc), (IH Hs).
Qed.

Lemma upper_alnum_not c x :
  is_upper_alnum x = false -> is_upper_alnum c = true -> negb (Ascii.eqb c x) = true.
Proof.
  intros Hx Hc. destruct (Ascii.eqb_spec c x) as [-> | _]; [| reflexivity].
  now rewrite Hx in Hc.
Qed.

Lemma valid_address_shape (address : string) :
  valid_address address = true ->
  (40 <= String.length address <= 42)%nat
  /\ all_chars is_upper_alnum address = true.
Proof.
  intros Hv.
  destruct address as [| c1 [| c2 rest]]; try discriminate Hv.
  - destruct c1 as [[] [] [] [] [] [] [] []]; discriminate Hv.
  - destruct c1 as [[] [] [] [] [] [] [] []]; try discriminate Hv.
    cbn [valid_address] in Hv.
    apply andb_prop in Hv as [Hv Hmax]. apply andb_prop in Hv as [Hv Hmin].
    apply andb_prop in Hv as [Hc2 Hrest].
    apply Nat.leb_le in Hmin, Hmax.
    split; [cbn [String.length]; lia |].
    cbn [all_chars]. rewrite Hrest.
    apply orb_prop in Hc2 as [Hc2 | Hc2]; apply Ascii.eqb_eq in Hc2;
      subst c2; reflexivity.
Qed.

(** X6.  An address that passes the shape check has 40 to 42 characters,
    all of them capital letters or digits: it holds no slash, question
    mark, hash, percent sign or dot, so it enters the lookup URLs as one
    path segment. *)
Theorem valid_address_is_one_segment (address : string) :
  valid_address address = true ->
  (40 <= String.length address <= 42)%nat
  /\ all_chars is_upper_alnum address = true
  /\ lacks "/" address = true /\ lacks "?" address = true
  /\ lacks "#" address = true /\ lacks "%" address = true
  /\ lacks "." address = true.
Proof.
  intros Hv. destruct (valid_address_shape address Hv) as [Hlen Hall].
  split; [exact Hlen |]. split; [exact Hall |].
  repeat split; unfold lacks;
    refine (all_chars_impl _ _ _ _ Hall); intros c Hc;
    now apply upper_alnum_not.
Qed.

Lemma valid_address_is_one_segment_witness :
  (40 <= String.length Demo.addr <= 42)%nat /\ lacks "/" Demo.addr = true.
Proof.
  destruct (valid_address_is_one_segment Demo.addr eq_refl)
    as (Hlen & _ & Hslash & _).
  split; [exact Hlen | exact Hslash].
Defined.

(** ** The display name *)

Lemma take_append_exact p q : take (String.length p) (p ++ q) = p.
Proof. induction p as [| c p IH]; simpl; [now destruct q | now rewrite IH]. Qed.

Lemma drop_append_exact p q : drop (String.length p) (p ++ q) = q.
Proof. induction p as [| c p IH]; simpl; [now destruct q | exact IH]. Qed.

(** X5.  For a record without a BNS name whose address passed the shape
    check, the name on the card is the first eight characters of the
    address, then three dots, then its last four characters: 15 characters
    that start and end as the address does and are never the whole
    address.  The prompt is built for such a record and quotes that name. *)
Theorem display_name_shortens_address (P : Platform) (wallet : WalletData) :
  valid_address (address wallet) = true ->
  truthy (bnsName wallet) = false ->
  exists s,
    display_name wallet = JStr s
    /\ s = take 8 (address wallet) ++ "..." ++ slice_last 4 (address wallet)
    /\ String.length (take 8 (address wallet)) = 8%nat
    /\ String.length (slice_last 4 (address wallet)) = 4%nat
    /\ String.length s = 15%nat
    /\ take 8 s = take 8 (address wallet)
    /\ take 3 (drop 8 s) = "..."
    /\ slice_last 4 s = slice_last 4 (address wallet)
    /\ s <> address wallet
    /\ exists before after,
         buildImagePrompt P wallet
         = inr (before ++ dquote ++ s ++ dquote ++ after).
Proof.
  intros Hv Hb.
  destruct (valid_address_shape _ Hv) as ([Hmin Hmax] & _).
  assert (Hname : display_name wallet
                  = JStr (take 8 (address wallet) ++ "..."
                          ++ slice_last 4 (address wallet))).
  { unfold display_name, or_else. now rewrite Hb. }
  set (a := address wallet) in *.
  assert (L8 : String.length (take 8 a) = 8%nat) by (apply take_length_exact; lia).
  assert (L4 : String.length (slice_last 4 a) = 4%nat).
  { unfold slice_last. rewrite drop_length. lia. }
  exists (take 8 a ++ "..." ++ slice_last 4 a).
  assert (Hlen : String.length (take 8 a ++ "..." ++ slice_last 4 a) = 15%nat).
  { rewrite !append_length, L8, L4. reflexivity. }
  split; [exact Hname |].
  split; [reflexivity |].
  split; [exact L8 |]. split; [exact L4 |].
  split; [exact Hlen |].
  split; [| split; [| split; [| split]]].
  - rewrite <- L8 at 1. apply take_append_exact.
  - pose proof (drop_append_exact (take 8 a) ("..." ++ slice_last 4 a)) as Hd.
    rewrite L8 in Hd. rewrite Hd.
    apply (take_append_exact "..." (slice_last 4 a)).
  - unfold slice_last at 1. rewrite Hlen.
    replace (take 8 a ++ "..." ++ slice_last 4 a)
      with ((take 8 a ++ "...") ++ slice_last 4 a)
      by (now rewrite append_assoc).
    replace (15 - 4)%nat with (String.length (take 8 a ++ "..."))
      by (rewrite append_length, L8; reflexivity).
    apply drop_append_exact.
  - intros E. apply (f_equal String.length) in E. rewrite Hlen in E. lia.
  - unfold buildImagePrompt. rewrite Hname. cbn [to_string tbind ok].
    exists (prompt_head ++ "- Display name prominently: ").
    eexists. rewrite !append_assoc. reflexivity.
Qed.

Lemma display_name_shortens_address_witness :
  display_name (degraded Demo.addr) = JStr "SP2J6ZY4...9EJ7".
Proof.
  destruct (display_name_shortens_address Demo.demo_platform
              (degraded Demo.addr) eq_refl eq_refl)
    as (s & Hs & _).
  rewrite Hs. vm_compute in Hs. injection Hs as <-. reflexivity.
Defined.

(** ** The image generator of version 2.0.0 *)

Lemma generateImage_of_cases (r : FetchResult) :
  (image_ready r = true
   /\ V2.generateImage_of r
      = {| V2.success := true; V2.imageUrl := image_url r;
           V2.image_error := JUndef |})
  \/ (image_ready r = false
      /\ exists reason,
           truthy reason = true
           /\ V2.generateImage_of r = V2.image_failed reason).
Proof.
  assert (Herr : forall e,
             truthy (JStr ("Image generation error: " ++ exn_text e)) = true)
    by reflexivity.
  unfold V2.generateImage_of, image_url.
  destruct r as [e | res]; cbn [await tbind try_catch throw ok image_ready transaction].
  { right. split; [reflexivity | eexists; split; [apply Herr | reflexivity]]. }
  destruct (res_ok res); cbn [negb andb].
  2:{ right. split; [reflexivity |].
      destruct (json res) as [e | err]; cbn [tbind try_catch].
      { eexists; split; [apply Herr | reflexivity]. }
      destruct (get err "error") as [e | inner]; cbn [tbind try_catch ok].
      { eexists; split; [apply Herr | reflexivity]. }
      eexists; split; [| reflexivity]. now apply truthy_or_else. }
  destruct (json res) as [e | data]; cbn [tbind try_catch].
  { right. split; [reflexivity | eexists; split; [apply Herr | reflexivity]]. }
  destruct (is_nullish data) eqn:Hd; cbn [negb andb].
  { right. split; [reflexivity |].
    destruct data; try discriminate Hd;
      (eexists; split; [apply Herr | reflexivity]). }
  rewrite (get_not_nullish data "data" Hd). cbn [tbind].
  destruct (is_nullish (opt_get data "data")) eqn:Hi; cbn [negb andb].
  { right. split; [reflexivity |].
    destruct (opt_get data "data"); try discriminate Hi;
      (eexists; split; [apply Herr | reflexivity]). }
  assert (Hidx : V2.index0_strict (opt_get data "data")
                 = inr (index0 (opt_get data "data"))).
  { destruct (opt_get data "data"); try discriminate Hi; reflexivity. }
  rewrite Hidx. cbn [tbind].
  destruct (is_nullish (index0 (opt_get data "data"))) eqn:Hf; cbn [negb andb].
  { right. split; [reflexivity |].
    destruct (index0 (opt_get data "data")); try discriminate Hf;
      (eexists; split; [apply Herr | reflexivity]). }
  rewrite (get_not_nullish _ "url" Hf). cbn [tbind try_catch ok].
  left. split; reflexivity.
Qed.

(** X7.  [generateImage] makes no upstream call when the API key is empty
    and exactly one POST otherwise.  It reports success exactly when the
    generator answered 2xx with a JSON body whose [data[0]] can be read, and
    then hands on [data[0].url] (which is [undefined] when the item names no
    URL); in every other case it reports failure with a non-empty reason and
    no URL. *)
Theorem generateImage_outcomes (w : World) (apiKey prompt : string) (r : FetchResult) :
  (apiKey = EmptyString ->
   run (V2.generateImage apiKey prompt) w
   = (V2.image_failed (JStr "Image generation not configured"), []))
  /\ (apiKey <> EmptyString ->
      run (V2.generateImage apiKey prompt) w
      = (V2.generateImage_of (fetch w 0 (V2.openai_call apiKey prompt)),
         [V2.openai_call apiKey prompt]))
  /\ (V2.success (V2.generateImage_of r) = true <-> image_ready r = true)
  /\ (V2.success (V2.generateImage_of r) = true ->
      V2.imageUrl (V2.generateImage_of r) = image_url r
      /\ V2.image_error (V2.generateImage_of r) = JUndef)
  /\ (V2.success (V2.generateImage_of r) = false ->
      V2.imageUrl (V2.generateImage_of r) = JUndef
      /\ truthy (V2.image_error (V2.generateImage_of r)) = true).
Proof.
  split; [| split; [| split; [| split]]].
  - intros ->. reflexivity.
  - intros Hk. unfold run, V2.generateImage.
    destruct (String.eqb_spec apiKey EmptyString); [contradiction | reflexivity].
  - destruct (generateImage_of_cases r) as [[Hr E] | [Hr (reason & _ & E)]];
      rewrite E, Hr; cbn; split; congruence.
  - destruct (generateImage_of_cases r) as [[Hr E] | [Hr (reason & _ & E)]];
      rewrite E; cbn; [now split | discriminate].
  - destruct (generateImage_of_cases r) as [[Hr E] | [Hr (reason & Ht & E)]];
      rewrite E; cbn; [discriminate | now split].
Qed.

(** ** What the paid route gives, and when *)

Section PaidRoute.

Variables (P : Platform) (env : V2.Bindings) (w : World).

Lemma card_invalid_run address xPayment :
  valid_address address = false ->
  run (V2.card P env address xPayment) w = (invalid_address_response, []).
Proof. intros Hv. unfold run, V2.card. now rewrite Hv. Qed.

(** Every request falls into one of three cases. *)
Lemma card_cases address xPayment :
  (valid_address address = false
   /\ run (V2.card P env address xPayment) w = (invalid_address_response, []))
  \/ (valid_address address = true
      /\ (xPayment = None \/ xPayment = Some EmptyString)
      /\ run (V2.card P env address xPayment) w
         = (challenge_response P w address, []))
  \/ (valid_address address = true
      /\ exists txid,
           xPayment = Some txid /\ txid <> EmptyString
           /\ run (V2.card P env address xPayment) w
              = paid_card P env w address txid).
Proof.
  destruct (valid_address address) eqn:Hv.
  - right. destruct xPayment as [txid |].
    + destruct (String.eqb_spec txid EmptyString) as [-> | Hne].
      * left. split; [reflexivity |]. split; [now right |].
        apply card_unpaid_run; [exact Hv | now right].
      * right. split; [reflexivity |]. exists txid.
        split; [reflexivity |]. split; [exact Hne |].
        now apply card_paid_run.
    + left. split; [reflexivity |]. split; [now left |].
      apply card_unpaid_run; [exact Hv | now left].
  - left. split; [reflexivity |]. now apply card_invalid_run.
Qed.

(** X8.  [/card/:address] of version 2.0.0 answers with image bytes only
    when the address is valid, the payment header is a non-empty string
    whose transaction verified, the prompt was built, the generator
    reported success with a printable URL, the download of that URL was
    answered 2xx and its bytes could be read; the bytes are the downloaded
    ones, the headers are those set from the address and the BNS name, and
    the request has made exactly seven upstream calls. *)
Theorem card_image_requires_payment (address : string) (xPayment : option string)
        (bytes : list Byte.byte) (headers : list (string * string)) :
  fst (run (V2.card P env address xPayment) w) = Binary bytes headers ->
  valid_address address = true
  /\ exists txid,
       xPayment = Some txid /\ txid <> EmptyString
       /\ V2.valid (V2.verifyPayment_of P (fetch w 0 (Get (V2.tx_url txid)))) = true
       /\ api_key env <> EmptyString
       /\ exists prompt imageResult url download,
            buildImagePrompt P (wallet_at P w 1 address) = inr prompt
            /\ imageResult
               = V2.generateImage_of
                   (fetch w 5 (V2.openai_call (api_key env) prompt))
            /\ V2.success imageResult = true
            /\ to_string P (V2.imageUrl imageResult) = inr url
            /\ fetch w 6 (Get url) = Fulfilled download
            /\ res_ok download = true
            /\ arrayBuffer download = inr bytes
            /\ sent_headers P
                 (V2.image_headers address (bnsName (wallet_at P w 1 address)))
               = inr headers
            /\ List.length (snd (run (V2.card P env address xPayment) w)) = 7%nat.
Proof.
  intros Hbin.
  destruct (card_cases address xPayment)
    as [[_ E] | [(_ & _ & E) | (Hv & txid & -> & Hne & E)]];
    rewrite E in Hbin; try discriminate Hbin.
  split; [exact Hv |]. exists txid. split; [reflexivity |]. split; [exact Hne |].
  rewrite E. clear E. unfold paid_card in *.
  destruct (V2.valid _); cbn [negb] in *; [| discriminate Hbin].
  split; [reflexivity |].
  destruct (buildImagePrompt P (wallet_at P w 1 address)) as [e | prompt];
    [discriminate Hbin |].
  destruct (String.eqb_spec (api_key env) EmptyString) as [Hk | Hk];
    [discriminate Hbin |].
  split; [exact Hk |].
  destruct (V2.success _) eqn:Hs; cbn [negb] in *; [| discriminate Hbin].
  destruct (to_string P _) as [e | url] eqn:Hurl; [discriminate Hbin |].
  cbn [fst snd] in *.
  destruct (fetch w 6 _) as [e | download] eqn:Hd; [discriminate Hbin |].
  destruct (res_ok download) eqn:Hok; cbn [negb] in Hbin; [| discriminate Hbin].
  destruct (arrayBuffer download) as [e | image] eqn:Himage; [discriminate Hbin |].
  destruct (new_Response_cases P image
              (V2.image_headers address (bnsName (wallet_at P w 1 address))))
    as [(sent & Hsent & Hresp) | (e & _ & Hresp)];
    rewrite Hresp in Hbin; [| discriminate Hbin].
  injection Hbin as <- <-.
  exists prompt. eexists. exists url, download.
  split; [reflexivity |]. split; [reflexivity |]. split; [exact Hs |].
  split; [exact Hurl |]. split; [exact Hd |]. split; [exact Hok |].
  split; [exact Himage |]. split; [exact Hsent | reflexivity].
Qed.

(** X9.  A request to [/card/:address] starts at most one generator call,
    and none unless the payment header carried a transaction that verified;
    [/data/:address] and [/prompt/:address] never call the generator. *)
Theorem generator_called_at_most_once (address : string) (xPayment : option string) :
  (List.length (posts (snd (run (V2.card P env address xPayment) w))) <= 1)%nat
  /\ (posts (snd (run (V2.card P env address xPayment) w)) <> [] ->
      exists txid,
        xPayment = Some txid
        /\ V2.valid (V2.verifyPayment_of P (fetch w 0 (Get (V2.tx_url txid)))) = true)
  /\ posts (snd (run (data P address) w)) = []
  /\ posts (snd (run (prompt P address) w)) = [].
Proof.
  split; [| split; [| split]].
  - destruct (card_cases address xPayment)
      as [[_ E] | [(_ & _ & E) | (Hv & txid & -> & Hne & E)]];
      rewrite E; cbn [snd posts filter List.length]; try lia.
    unfold paid_card. destruct (V2.valid _); cbn [negb]; [| cbn; lia].
    destruct (buildImagePrompt P _) as [e | p]; [cbn; lia |].
    destruct (String.eqb (api_key env) EmptyString); [cbn; lia |].
    destruct (V2.success _); cbn [negb]; [| cbn; lia].
    destruct (to_string P _); cbn; lia.
  - destruct (card_cases address xPayment)
      as [[_ E] | [(_ & _ & E) | (Hv & txid & -> & Hne & E)]];
      rewrite E; cbn [snd posts filter]; try (intros H; now destruct H).
    unfold paid_card. intros Hposts. exists txid. split; [reflexivity |].
    destruct (V2.valid _); cbn [negb] in *; [reflexivity |].
    now destruct Hposts.
  - destruct (valid_address address) eqn:Hv.
    + now rewrite (data_run P w address Hv).
    + unfold run, data. now rewrite Hv.
  - destruct (valid_address address) eqn:Hv.
    + now rewrite (prompt_run P w address Hv).
    + unfold run, prompt. now rewrite Hv.
Qed.

End PaidRoute.

Lemma card_image_requires_payment_witness :
  let w := Demo.scripted
             [Demo.replied 200 Demo.paid_tx;
              Demo.replied 200 Demo.names_payload;
              Demo.replied 200 Demo.balances_payload;
              Demo.replied 200 Demo.balances_payload;
              Demo.replied 200 Demo.balances_payload;
              Demo.replied 200 (JObj [("data", JArr [JObj [("url", JStr "https://img.example/1.png")]])]);
              Demo.bytes_reply 200 [Byte.x89; Byte.x50; Byte.x4e; Byte.x47]] in
  fst (run (V2.card Demo.demo_platform Demo.env2 Demo.addr (Some "0xabc")) w)
  = Binary [Byte.x89; Byte.x50; Byte.x4e; Byte.x47]
           [("Content-Type", "image/png");
            ("Cache-Control", "public, max-age=3600");
            ("X-Wallet-Address", Demo.addr);
            ("X-BNS-Name", "whoabuddy.btc");
            ("X-Payment-Verified", "true")]
  /\ V2.valid (V2.verifyPayment_of Demo.demo_platform
                 (fetch w 0 (Get (V2.tx_url "0xabc")))) = true.
Proof.
  intros w.
  assert (E : fst (run (V2.card Demo.demo_platform Demo.env2 Demo.addr (Some "0xabc")) w)
              = Binary [Byte.x89; Byte.x50; Byte.x4e; Byte.x47]
                       [("Content-Type", "image/png");
                        ("Cache-Control", "public, max-age=3600");
                        ("X-Wallet-Address", Demo.addr);
                        ("X-BNS-Name", "whoabuddy.btc");
                        ("X-Payment-Verified", "true")])
    by (vm_compute; reflexivity).
  split; [exact E |].
  destruct (card_image_requires_payment Demo.demo_platform Demo.env2 w
              Demo.addr (Some "0xabc") _ _ E)
    as (_ & txid & Htx & _ & Hvalid & _).
  injection Htx as <-. exact Hvalid.
Defined.

(** ** Status codes of the paid route *)

Section PaidStatus.

Variables (P : Platform) (env : V2.Bindings) (w : World).

(** X10.  [/card/:address] of version 2.0.0 answers 200, 400, 402, 403 or
    500 and nothing else: 400 exactly for an address that fails the shape
    check, 402 exactly for a valid address with no or an empty payment
    header, 403 exactly for a valid address with a non-empty header whose
    transaction does not verify. *)
Theorem card_status_classes (address : string) (xPayment : option string) :
  let code := status_code (fst (run (V2.card P env address xPayment) w)) in
  In code [200; 400; 402; 403; 500]%nat
  /\ (code = 400%nat <-> valid_address address = false)
  /\ (code = 402%nat <->
      valid_address address = true
      /\ (xPayment = None \/ xPayment = Some EmptyString))
  /\ (code = 403%nat <->
      valid_address address = true
      /\ exists txid,
           xPayment = Some txid /\ txid <> EmptyString
           /\ V2.valid (V2.verifyPayment_of P (fetch w 0 (Get (V2.tx_url txid))))
              = false).
Proof.
  intros code. subst code.
  destruct (card_cases P env w address xPayment)
    as [[Hv E] | [(Hv & Hx & E) | (Hv & txid & -> & Hne & E)]]; rewrite E.
  - cbn [fst invalid_address_response status_code]. rewrite Hv.
    split; [cbn; tauto |]. split; [tauto |].
    split; (split; [intros H; lia | intros [H _]; discriminate H]).
  - cbn [fst challenge_response status_code]. rewrite Hv.
    split; [cbn; tauto |].
    split; [split; [intros H; lia | discriminate] |].
    split; [tauto |].
    split; [intros H; lia |].
    intros (_ & txid & Hx' & Hne & _).
    destruct Hx as [-> | ->]; [discriminate Hx' |].
    injection Hx' as <-. exfalso. now apply Hne.
  - rewrite Hv.
    destruct (paid_card_status P env w address txid)
      as [[Hverdict Hc] | [Hverdict Hc]].
    + rewrite Hc. split; [cbn; tauto |].
      split; [split; [intros H; lia | discriminate] |].
      split.
      * split; [intros H; lia |].
        intros (_ & [Hx | Hx]); [discriminate Hx |].
        injection Hx as ->. exfalso. now apply Hne.
      * split; [| reflexivity].
        intros _. split; [reflexivity |]. now exists txid.
    + assert (Hnot : forall n, (n < 200 \/ 200 < n < 500)%nat ->
                status_code (fst (paid_card P env w address txid)) <> n)
        by (intros n Hn; destruct Hc as [Hc | Hc]; rewrite Hc; lia).
      split; [destruct Hc as [Hc | Hc]; rewrite Hc; cbn; tauto |].
      split; [split; [intros H; exfalso; apply (Hnot 400%nat); [lia | exact H]
                     | discriminate] |].
      split.
      * split; [intros H; exfalso; apply (Hnot 402%nat); [lia | exact H] |].
        intros (_ & [Hx | Hx]); [discriminate Hx |].
        injection Hx as ->. exfalso. now apply Hne.
      * split; [intros H; exfalso; apply (Hnot 403%nat); [lia | exact H] |].
        intros (_ & txid' & Hx & _ & Hinv). injection Hx as <-.
        rewrite Hverdict in Hinv. discriminate Hinv.
Qed.

(** X11.  The payment check does not look at the address: for two valid
    addresses and one non-empty payment header, both requests start with
    the same transaction lookup, and one is answered 403 exactly when the
    other is.  A transaction that verified for one address is accepted for
    every other. *)
Theorem payment_not_bound_to_address (a1 a2 txid : string) :
  valid_address a1 = true ->
  valid_address a2 = true ->
  txid <> EmptyString ->
  hd_error (snd (run (V2.card P env a1 (Some txid)) w))
  = hd_error (snd (run (V2.card P env a2 (Some txid)) w))
  /\ hd_error (snd (run (V2.card P env a1 (Some txid)) w))
     = Some (Get (V2.tx_url txid))
  /\ (status_code (fst (run (V2.card P env a1 (Some txid)) w)) = 403%nat
      <-> status_code (fst (run (V2.card P env a2 (Some txid)) w)) = 403%nat).
Proof.
  intros H1 H2 Hne.
  rewrite (card_paid_run P env w a1 H1 txid Hne),
    (card_paid_run P env w a2 H2 txid Hne).
  rewrite !paid_card_first_call.
  split; [reflexivity |]. split; [reflexivity |].
  destruct (paid_card_status P env w a1 txid) as [[Hv1 Hc1] | [Hv1 Hc1]];
    destruct (paid_card_status P env w a2 txid) as [[Hv2 Hc2] | [Hv2 Hc2]];
    try (rewrite Hv1 in Hv2; discriminate Hv2).
  - rewrite Hc1, Hc2. tauto.
  - split; intros H; exfalso;
      [destruct Hc1 as [Hc | Hc] | destruct Hc2 as [Hc | Hc]];
      rewrite Hc in H; lia.
Qed.

End PaidStatus.

Lemma payment_not_bound_to_address_witness :
  let w := Demo.scripted [Demo.replied 200 Demo.paid_tx] in
  hd_error (snd (run (V2.card Demo.demo_platform Demo.env2
                        "SM2J6ZY48GV1EZ5V2V5RB9MP66SW86PYKKQVX8X0G" (Some "0xabc")) w))
  = Some (Get "https://api.hiro.so/extended/v1/tx/0xabc")
  /\ status_code (fst (run (V2.card Demo.demo_platform Demo.env2 Demo.addr
                              (Some "0xabc")) w)) <> 403%nat.
Proof.
  intros w.
  assert (Hne : "0xabc" <> EmptyString) by discriminate.
  destruct (payment_not_bound_to_address Demo.demo_platform Demo.env2 w
              "SM2J6ZY48GV1EZ5V2V5RB9MP66SW86PYKKQVX8X0G" Demo.addr "0xabc"
              eq_refl eq_refl Hne)
    as (_ & Hhd & Hiff).
  split; [exact Hhd |].
  intros H403. apply Hiff in H403. vm_compute in H403. discriminate H403.
Defined.

(** ** The challenge and the verifier *)

(** X12.  The contract that the 402 challenge tells the caller to pay is
    the contract the verifier requires: a found, successful contract call
    verifies exactly when its [contract_id] is the challenge's
    [payment.contract]; the challenge's price is [CARD_PRICE] and its
    resource names the requested address. *)
Theorem challenge_names_verified_contract (P : Platform) (w : World)
        (address : string) (r : FetchResult) :
  exists contract,
    opt_get (body_field (challenge_response P w address) "payment") "contract"
    = JStr contract
    /\ (lookup_found r = true -> status_success r = true ->
        type_contract_call r = true ->
        (V2.valid (V2.verifyPayment_of P r) = true
         <-> opt_get (opt_get (transaction r) "contract_call") "contract_id"
             = JStr contract))
    /\ opt_get (body_field (challenge_response P w address) "payment") "price"
       = JNum V2.CARD_PRICE
    /\ body_field (challenge_response P w address) "resource"
       = JStr ("/card/" ++ address).
Proof.
  exists V2.expectedContract.
  split; [reflexivity |]. split; [| split; reflexivity].
  intros Hf Hs Ht.
  destruct (verifyPayment_of_cases P r) as [[H4 E] | [H4 (reason & E)]];
    rewrite Hf, Hs, Ht in H4; cbn [andb] in H4; rewrite E; cbn [V2.valid V2.invalid].
  - split; [intros _ | reflexivity].
    unfold contract_expected, is_string in H4.
    destruct (opt_get _ "contract_id") as [ | | | | s | | ]; try discriminate H4.
    apply String.eqb_eq in H4. now subst s.
  - split; [discriminate |]. intros Hc.
    unfold contract_expected in H4. rewrite Hc in H4. cbn [is_string] in H4.
    now rewrite String.eqb_refl in H4.
Qed.

(** ** The free routes *)

Lemma printable_display_name wallet :
  printable (display_name wallet) = printable (bnsName wallet).
Proof.
  unfold display_name, or_else.
  destruct (truthy (bnsName wallet)) eqn:T; [reflexivity |].
  destruct (bnsName wallet) as [ | | b | n | s | items | props];
    try reflexivity; discriminate T.
Qed.

(** X13.  For a valid address [/prompt/:address] and [/data/:address] make
    the same four lookups.  When the name found is printable, the preview
    answers 200 and shows, under [walletData], the body that
    [/data/:address] returns in the same world, with a prompt that opens
    with the card description; when it is not, the preview ends with the
    exception of the conversion, which the framework answers with 500,
    while [/data/:address] still answers 200. *)
Theorem preview_shows_the_data_record (P : Platform) (w : World) (address : string) :
  valid_address address = true ->
  let name := getBnsName_of (fetch w 0 (Get (bns_url address))) in
  let preview := fst (run (prompt P address) w) in
  exists record,
    fst (run (data P address) w) = Json 200 record
    /\ opt_get record "bnsName" = name
    /\ snd (run (prompt P address) w) = snd (run (data P address) w)
    /\ snd (run (data P address) w)
       = [Get (bns_url address); Get (balances_url address);
          Get (balances_url address); Get (balances_url address)]
    /\ (printable name = true ->
        exists p,
          preview
          = Json 200
              (JObj [("walletData", record);
                     ("prompt", JStr p);
                     ("note", JStr "This prompt will be sent to AI image generation when you call /card/:address")])
          /\ startsWith prompt_head p = true)
    /\ (printable name = false ->
        exists e, preview = Unhandled e /\ status_code preview = 500%nat).
Proof.
  intros Hv name preview. subst preview.
  rewrite (data_run P w address Hv), (prompt_run P w address Hv).
  eexists. split; [reflexivity |]. split; [reflexivity |].
  split; [reflexivity |]. split; [reflexivity |]. cbn [fst].
  pose proof (printable_display_name (wallet_at P w 0 address)) as Hname.
  cbn [wallet_at bnsName] in Hname. fold name in Hname.
  pose proof (to_string_ok_iff P (display_name (wallet_at P w 0 address))) as Hiff.
  destruct (buildImagePrompt_cases P (wallet_at P w 0 address))
    as [(e & Hs & Hb) | (shown & p & Hs & Hb & Hhead)]; rewrite Hb.
  - split.
    + intros Hp. rewrite <- Hname in Hp. apply Hiff in Hp.
      destruct Hp as [s E]. rewrite Hs in E. discriminate E.
    + intros _. now exists e.
  - split.
    + intros _. now exists p.
    + intros Hp. rewrite <- Hname in Hp.
      assert (Ht : printable (display_name (wallet_at P w 0 address)) = true)
        by (apply Hiff; now exists shown).
      rewrite Ht in Hp. discriminate Hp.
Qed.

Lemma preview_shows_the_data_record_witness :
  body_field (fst (run (prompt Demo.demo_platform Demo.addr) (Demo.scripted [])))
             "walletData"
  = walletData_json (degraded Demo.addr).
Proof.
  destruct (preview_shows_the_data_record Demo.demo_platform (Demo.scripted [])
              Demo.addr eq_refl) as (record & Hdata & _ & _ & _ & Hprev & _).
  destruct (Hprev eq_refl) as (p & Hp & _).
  rewrite Hp. vm_compute in Hdata. injection Hdata as <-. reflexivity.
Defined.

(** ** The forwarding route of version 1.0.0 *)

Lemma status_402_not_ok res : status res = 402%nat -> res_ok res = false.
Proof. intros H. unfold res_ok. now rewrite H. Qed.

(** X14.  When the prompt [p] of the record has been built and the stx402
    generator answers the call for [p] with 402 and a JSON object,
    [/card/:address] of version 1.0.0 answers 402 with every field of that
    object kept as it is, except [note], [walletData] and [prompt], which
    the route sets itself: to its own note, to the record it aggregated and
    to [p]. *)
Theorem forwarded_payment_fields_kept (P : Platform) (env : V1.Bindings)
        (w : World) (address : string) (p : string) (res : HttpResponse)
        (props : list (string * JsVal)) (k : string) :
  valid_address address = true ->
  buildImagePrompt P (wallet_at P w 0 address) = inr p ->
  fetch w 4 (V1.stx402_call (V1.STX402_BASE env) p) = Fulfilled res ->
  status res = 402%nat ->
  json res = inr (JObj props) ->
  k <> "note" -> k <> "walletData" -> k <> "prompt" ->
  status_code (fst (run (V1.card P env address) w)) = 402%nat
  /\ body_field (fst (run (V1.card P env address) w)) k = lookup k props
  /\ body_field (fst (run (V1.card P env address) w)) "note"
     = JStr "Pay to generate your wallet identity card"
  /\ body_field (fst (run (V1.card P env address) w)) "walletData"
     = walletData_json (wallet_at P w 0 address)
  /\ body_field (fst (run (V1.card P env address) w)) "prompt" = JStr p.
Proof.
  intros Hv Hp Hres Hstatus Hjson Hn Hw Hk.
  rewrite (card_v1_run P env w address Hv). unfold forwarded_card.
  rewrite Hp, Hres, Hstatus, Hjson. cbn [Nat.eqb fst status_code body_field].
  unfold V1.payment_required. cbn [opt_get V1.spread entries].
  split; [reflexivity |]. split; [| split; [| split]].
  - rewrite !lookup_set_prop_other; [reflexivity | | |];
      now apply String.eqb_neq.
  - rewrite lookup_set_prop_other by reflexivity.
    rewrite lookup_set_prop_other by reflexivity.
    now rewrite lookup_set_prop_same.
  - rewrite lookup_set_prop_other by reflexivity.
    now rewrite lookup_set_prop_same.
  - now rewrite lookup_set_prop_same.
Qed.

Lemma forwarded_payment_fields_kept_witness :
  let w := Demo.scripted
             [Demo.network_down; Demo.network_down; Demo.network_down;
              Demo.network_down;
              Demo.replied 402 (JObj [("maxAmountRequired", JStr "1000");
                                      ("prompt", JStr "theirs");
                                      ("payTo", JStr "SP2J6ZY48GV1EZ5V2V5RB9MP66SW86PYKKNRV9EJ7")])] in
  body_field (fst (run (V1.card Demo.demo_platform Demo.env1 Demo.addr) w)) "payTo"
  = JStr "SP2J6ZY48GV1EZ5V2V5RB9MP66SW86PYKKNRV9EJ7"
  /\ body_field (fst (run (V1.card Demo.demo_platform Demo.env1 Demo.addr) w)) "prompt"
     <> JStr "theirs".
Proof.
  intros w.
  destruct (forwarded_payment_fields_kept Demo.demo_platform Demo.env1 w
              Demo.addr _ _ _ "payTo" eq_refl eq_refl eq_refl eq_refl eq_refl
              ltac:(discriminate) ltac:(discriminate) ltac:(discriminate))
    as (_ & Hkept & _ & _ & Hprompt).
  split; [exact Hkept |].
  rewrite Hprompt. discriminate.
Defined.

(** X15.  For a valid address [/card/:address] of version 1.0.0 makes the
    four lookups first.  When the prompt of the record cannot be built the
    request ends there with the exception.  Otherwise it makes exactly one
    generator call, with that prompt, and answers
    - with the image exactly when the generator answered 2xx, its bytes
      could be read and the response headers could be set;
    - 402 exactly when the generator answered 402 with a JSON body;
    - 500 with the generator's status echoed for any other status;
    a rejected call, an unreadable 402 body, unreadable bytes and a header
    that cannot be set are not caught. *)
Theorem forwarded_card_outcomes (P : Platform) (env : V1.Bindings)
        (w : World) (address : string) :
  valid_address address = true ->
  let record := wallet_at P w 0 address in
  let answer := fst (run (V1.card P env address) w) in
  let calls := snd (run (V1.card P env address) w) in
  let headers := V1.image_headers address (bnsName record) in
  (forall e, buildImagePrompt P record = inl e ->
             answer = Unhandled e /\ calls = lookups address)
  /\ (forall p, buildImagePrompt P record = inr p ->
        let generation := V1.stx402_call (V1.STX402_BASE env) p in
        calls = (lookups address ++ [generation])%list
        /\ (forall bytes sent,
              answer = Binary bytes sent
              <-> exists res,
                    fetch w 4 generation = Fulfilled res /\ res_ok res = true
                    /\ arrayBuffer res = inr bytes
                    /\ sent_headers P headers = inr sent)
        /\ (status_code answer = 200%nat
            <-> exists bytes sent, answer = Binary bytes sent)
        /\ (status_code answer = 402%nat
            <-> exists res info,
                  fetch w 4 generation = Fulfilled res
                  /\ status res = 402%nat /\ json res = inr info)
        /\ (forall res,
              fetch w 4 generation = Fulfilled res ->
              res_ok res = false -> status res <> 402%nat ->
              status_code answer = 500%nat
              /\ body_field answer "status" = JNum (V1.status_number res)
              /\ body_field answer "walletData" = walletData_json record
              /\ body_field answer "prompt" = JStr p)
        /\ (forall e, fetch w 4 generation = Rejected e -> answer = Unhandled e)
        /\ (forall res e,
              fetch w 4 generation = Fulfilled res ->
              status res = 402%nat -> json res = inl e -> answer = Unhandled e)
        /\ (forall res e,
              fetch w 4 generation = Fulfilled res ->
              res_ok res = true -> arrayBuffer res = inl e ->
              answer = Unhandled e)
        /\ (forall res bytes e,
              fetch w 4 generation = Fulfilled res ->
              res_ok res = true -> arrayBuffer res = inr bytes ->
              sent_headers P headers = inl e ->
              answer = Unhandled e)).
Proof.
  intros Hv record answer calls headers. subst answer calls.
  rewrite (card_v1_run P env w address Hv). unfold forwarded_card.
  fold record. fold headers.
  split.
  { intros e He. rewrite He. now split. }
  intros p Hp. rewrite Hp.
  set (generation := V1.stx402_call (V1.STX402_BASE env) p). cbn [fst snd].
  split; [reflexivity |].
  destruct (fetch w 4 generation) as [e | res] eqn:Hfetch.
  { split; [intros bytes sent; split;
            [discriminate | intros (res & H & _); discriminate H] |].
    split; [split; [discriminate | intros (b & s & H); discriminate H] |].
    split; [split; [discriminate | intros (res & info & H & _); discriminate H] |].
    split; [intros res H; discriminate H |].
    split; [intros e' H; now injection H as -> |].
    split; [intros res e' H; discriminate H |].
    split; [intros res e' H; discriminate H | intros res b e' H; discriminate H]. }
  destruct (Nat.eqb_spec (status res) 402) as [H402 | H402].
  - pose proof (status_402_not_ok res H402) as Hnok.
    destruct (json res) as [e | info] eqn:Hjson.
    + split; [intros bytes sent; split;
              [discriminate
              | intros (res' & H & Hok & _); injection H as <-;
                rewrite Hnok in Hok; discriminate Hok] |].
      split; [split; [discriminate | intros (b & s & H); discriminate H] |].
      split; [split; [discriminate
                     | intros (res' & info & H & _ & Hj); injection H as <-;
                       rewrite Hjson in Hj; discriminate Hj] |].
      split; [intros res' H _ Hne; injection H as <-; contradiction |].
      split; [intros e' H; discriminate H |].
      split; [intros res' e' H _ Hj; injection H as <-; rewrite Hjson in Hj;
              now injection Hj as -> |].
      split; [intros res' e' H Hok _; injection H as <-;
              rewrite Hnok in Hok; discriminate Hok |].
      intros res' b e' H Hok _ _. injection H as <-.
      rewrite Hnok in Hok. discriminate Hok.
    + split; [intros bytes sent; split;
              [discriminate
              | intros (res' & H & Hok & _); injection H as <-;
                rewrite Hnok in Hok; discriminate Hok] |].
      split; [split; [intros H; cbn in H; lia
                     | intros (b & s & H); discriminate H] |].
      split; [split; [intros _; now exists res, info | reflexivity] |].
      split; [intros res' H _ Hne; injection H as <-; contradiction |].
      split; [intros e' H; discriminate H |].
      split; [intros res' e' H _ Hj; injection H as <-; rewrite Hjson in Hj;
              discriminate Hj |].
      split; [intros res' e' H Hok _; injection H as <-;
              rewrite Hnok in Hok; discriminate Hok |].
      intros res' b e' H Hok _ _. injection H as <-.
      rewrite Hnok in Hok. discriminate Hok.
  - destruct (res_ok res) eqn:Hok; cbn [negb].
    + destruct (arrayBuffer res) as [e | image] eqn:Himage.
      * split; [intros bytes sent; split;
                [discriminate
                | intros (res' & H & _ & Hb & _); injection H as <-;
                  rewrite Himage in Hb; discriminate Hb] |].
        split; [split; [intros H; cbn in H; lia
                       | intros (b & s & H); discriminate H] |].
        split; [split; [intros H; cbn in H; lia
                       | intros (res' & info & H & Hs & _); injection H as <-;
                         contradiction] |].
        split; [intros res' H Hnok _; injection H as <-;
                rewrite Hok in Hnok; discriminate Hnok |].
        split; [intros e' H; discriminate H |].
        split; [intros res' e' H Hs _; injection H as <-; contradiction |].
        split; [intros res' e' H _ Hb; injection H as <-; rewrite Himage in Hb;
                now injection Hb as -> |].
        intros res' b e' H _ Hb _. injection H as <-.
        rewrite Himage in Hb. discriminate Hb.
      * destruct (new_Response_cases P image headers)
          as [(sent & Hsent & Hresp) | (e & Hsent & Hresp)]; rewrite Hresp.
        -- split; [intros bytes sent'; split;
                   [intros H; injection H as <- <-; now exists res
                   | intros (res' & H & _ & Hb & Hs'); injection H as <-;
                     rewrite Himage in Hb; injection Hb as <-;
                     rewrite Hsent in Hs'; now injection Hs' as <-] |].
           split; [split; [intros _; now exists image, sent | reflexivity] |].
           split; [split; [intros H; cbn in H; lia
                          | intros (res' & info & H & Hs & _); injection H as <-;
                            contradiction] |].
           split; [intros res' H Hnok _; injection H as <-;
                   rewrite Hok in Hnok; discriminate Hnok |].
           split; [intros e' H; discriminate H |].
           split; [intros res' e' H Hs _; injection H as <-; contradiction |].
           split; [intros res' e' H _ Hb; injection H as <-;
                   rewrite Himage in Hb; discriminate Hb |].
           intros res' b e' H _ _ Hs'. rewrite Hsent in Hs'. discriminate Hs'.
        -- split; [intros bytes sent'; split;
                   [discriminate
                   | intros (res' & H & _ & _ & Hs'); rewrite Hsent in Hs';
                     discriminate Hs'] |].
           split; [split; [intros H; cbn in H; lia
                          | intros (b & s & H); discriminate H] |].
           split; [split; [intros H; cbn in H; lia
                          | intros (res' & info & H & Hs & _); injection H as <-;
                            contradiction] |].
           split; [intros res' H Hnok _; injection H as <-;
                   rewrite Hok in Hnok; discriminate Hnok |].
           split; [intros e' H; discriminate H |].
           split; [intros res' e' H Hs _; injection H as <-; contradiction |].
           split; [intros res' e' H _ Hb; injection H as <-;
                   rewrite Himage in Hb; discriminate Hb |].
           intros res' b e' H _ _ Hs'. rewrite Hsent in Hs'.
           now injection Hs' as ->.
    + split; [intros bytes sent; split;
              [discriminate
              | intros (res' & H & Hok' & _); injection H as <-;
                rewrite Hok in Hok'; discriminate Hok'] |].
      split; [split; [intros H; cbn in H; lia
                     | intros (b & s & H); discriminate H] |].
      split; [split; [intros H; cbn in H; lia
                     | intros (res' & info & H & Hs & _); injection H as <-;
                       contradiction] |].
      split; [intros res' H _ _; injection H as <-; repeat split |].
      split; [intros e' H; discriminate H |].
      split; [intros res' e' H Hs _; injection H as <-; contradiction |].
      split; [intros res' e' H Hok' _; injection H as <-;
              rewrite Hok in Hok'; discriminate Hok' |].
      intros res' b e' H Hok' _ _. injection H as <-.
      rewrite Hok in Hok'. discriminate Hok'.
Qed.

Lemma forwarded_card_outcomes_witness :
  let w := Demo.scripted
             [Demo.network_down; Demo.network_down; Demo.network_down;
              Demo.network_down; Demo.replied 503 JNull] in
  exists p,
    buildImagePrompt Demo.demo_platform (degraded Demo.addr) = inr p
    /\ body_field (fst (run (V1.card Demo.demo_platform Demo.env1 Demo.addr) w))
                  "status"
       = JNum 503%float
    /\ snd (run (V1.card Demo.demo_platform Demo.env1 Demo.addr) w)
       = (lookups Demo.addr ++ [V1.stx402_call "https://stx402.com" p])%list.
Proof.
  intros w.
  destruct (forwarded_card_outcomes Demo.demo_platform Demo.env1 w Demo.addr
              eq_refl)
    as (_ & Hbuilt).
  eexists. split; [vm_compute; reflexivity |].
  destruct (Hbuilt _ eq_refl) as (Hcalls & _ & _ & _ & H500 & _).
  destruct (H500 _ eq_refl eq_refl ltac:(discriminate)) as (_ & Hstatus & _).
  split; [rewrite Hstatus; vm_compute; reflexivity | exact Hcalls].
Defined.

(** ** Holdings and counts at the edges *)

Lemma counts_of_null P es :
  Exists (fun e => is_nullish (snd e) = true) es ->
  exists e, counts_of P es = inl e.
Proof.
  unfold counts_of.
  induction 1 as [[key nft] es Hnull | [key nft] es _ IH];
    cbn [map_throws snd].
  - simpl in Hnull. destruct nft; try discriminate Hnull; eexists; reflexivity.
  - destruct (item_count P nft) as [e | c]; cbn [tbind]; [now exists e |].
    destruct IH as [e ->]. now exists e.
Qed.

(** X16.  The holdings are all or nothing.  If the conversion of one of
    the first five fungible entries throws (a balance that is no integer, a
    null entry), the record shows no holding at all, whereas entries after
    the fifth never matter: two payloads with the same first five entries
    give the same holdings.  If any collection entry is null, also one after
    the third, the count is 0 and no collection is shown. *)
Theorem holdings_all_or_nothing (P : Platform) (res : HttpResponse) (data : JsVal)
        (fts nfts : list (string * JsVal)) :
  res_ok res = true ->
  json res = inr data ->
  payload_entries data "fungible_tokens" = inr fts ->
  payload_entries data "non_fungible_tokens" = inr nfts ->
  (forall e, map_throws (ft_entry P) (firstn 5 fts) = inl e ->
             getFtBalances_of P (Fulfilled res) = [])
  /\ (forall res' data' fts',
        res_ok res' = true -> json res' = inr data' ->
        payload_entries data' "fungible_tokens" = inr fts' ->
        firstn 5 fts' = firstn 5 fts ->
        getFtBalances_of P (Fulfilled res') = getFtBalances_of P (Fulfilled res))
  /\ (Exists (fun e => is_nullish (snd e) = true) nfts ->
      getNftHoldings_of P (Fulfilled res) = {| count := 0%float; top := [] |}).
Proof.
  intros Hok Hjson Hft Hnft.
  split; [| split].
  - intros e He. rewrite (getFtBalances_of_entries P res data fts Hok Hjson Hft).
    now rewrite He.
  - intros res' data' fts' Hok' Hjson' Hft' Hsame.
    rewrite (getFtBalances_of_entries P res data fts Hok Hjson Hft),
      (getFtBalances_of_entries P res' data' fts' Hok' Hjson' Hft').
    now rewrite Hsame.
  - intros Hnull.
    rewrite (getNftHoldings_of_entries P res data nfts Hok Hjson Hnft).
    destruct (counts_of_null P nfts Hnull) as [e He].
    now rewrite He.
Qed.

Lemma holdings_all_or_nothing_witness :
  getFtBalances_of Demo.demo_platform
    (Demo.replied 200
       (JObj [("fungible_tokens",
               JObj [Demo.token "SP1.welsh" "welshcorgicoin" "1000000";
                     Demo.token "SP2.leo" "leo" "2.5"])]))
  = []
  /\ getNftHoldings_of Demo.demo_platform
       (Demo.replied 200
          (JObj [("non_fungible_tokens",
                  JObj (Demo.seven_collections ++ [("SP8.late::late", JNull)]))]))
     = {| count := 0%float; top := [] |}.
Proof.
  split.
  - destruct (holdings_all_or_nothing Demo.demo_platform
                {| status := 200;
                   json := inr (JObj [("fungible_tokens",
                                      JObj [Demo.token "SP1.welsh" "welshcorgicoin" "1000000";
                                            Demo.token "SP2.leo" "leo" "2.5"])]);
                   arrayBuffer := inr [] |}
                _ _ [] eq_refl eq_refl eq_refl eq_refl)
      as (Hthrow & _).
    exact (Hthrow _ eq_refl).
  - destruct (holdings_all_or_nothing Demo.demo_platform
                {| status := 200;
                   json := inr (JObj [("non_fungible_tokens",
                                      JObj (Demo.seven_collections
                                            ++ [("SP8.late::late", JNull)]))]);
                   arrayBuffer := inr [] |}
                _ [] _ eq_refl eq_refl eq_refl eq_refl)
      as (_ & _ & Hnull).
    apply Hnull. apply Exists_exists.
    exists ("SP8.late::late", JNull). split; [| reflexivity].
    apply in_or_app. right. now left.
Defined.

Lemma num_add_NaN_r a : num_add a NaN = NaN.
Proof.
  unfold num_add, NaN. apply Prim2SF_inj. rewrite add_spec.
  change (Prim2SF nan) with S754_nan.
  unfold SF64add, SFadd. now destruct (Prim2SF a).
Qed.

Lemma num_add_NaN_l a : num_add NaN a = NaN.
Proof.
  unfold num_add, NaN. apply Prim2SF_inj. rewrite add_spec.
  change (Prim2SF nan) with S754_nan. reflexivity.
Qed.

Lemma fold_add_NaN cs : fold_left num_add cs NaN = NaN.
Proof.
  induction cs as [| c cs IH]; cbn [fold_left]; [reflexivity |].
  now rewrite num_add_NaN_l.
Qed.

Lemma fold_add_poisoned cs init : In NaN cs -> fold_left num_add cs init = NaN.
Proof.
  revert init. induction cs as [| c cs IH]; intros init Hin; [destruct Hin |].
  cbn [fold_left]. destruct Hin as [-> | Hin].
  - rewrite num_add_NaN_r. apply fold_add_NaN.
  - now apply IH.
Qed.

(** X17.  For a 2xx payload with the collection entries [nfts]: when every
    count converts, [nftCount] is the counts added up from the left as
    JavaScript numbers, and it is NaN as soon as one count does not parse
    ([parseInt] gives NaN), whatever the other counts are; when a
    conversion throws, the count is 0 and no collection is shown.  An entry
    with no [count], or with the count 0 or an empty string, counts 0; a
    count that is a non-empty string counts what [parseInt] reads from it;
    a count that is not printable makes the conversion throw. *)
Theorem nft_count_sum_or_NaN (P : Platform) (res : HttpResponse) (data : JsVal)
        (nfts : list (string * JsVal)) :
  res_ok res = true ->
  json res = inr data ->
  payload_entries data "non_fungible_tokens" = inr nfts ->
  (forall cs, counts_of P nfts = inr cs ->
              count (getNftHoldings_of P (Fulfilled res)) = total cs
              /\ List.length cs = List.length nfts
              /\ (In NaN cs ->
                  count (getNftHoldings_of P (Fulfilled res)) = NaN))
  /\ (forall e, counts_of P nfts = inl e ->
                getNftHoldings_of P (Fulfilled res)
                = {| count := 0%float; top := [] |})
  /\ (forall nft, is_nullish nft = false ->
                  truthy (opt_get nft "count") = false ->
                  item_count P nft = inr 0%float)
  /\ (forall nft s, opt_get nft "count" = JStr s -> s <> EmptyString ->
                    item_count P nft = inr (parseInt10_string s))
  /\ (forall nft, is_nullish nft = false ->
                  printable (opt_get nft "count") = false ->
                  exists e, item_count P nft = inl e).
Proof.
  intros Hok Hjson Hnft.
  rewrite (getNftHoldings_of_entries P res data nfts Hok Hjson Hnft).
  split; [| split; [| split; [| split]]].
  - intros cs Hcs. rewrite Hcs. js_step.
    split; [reflexivity |].
    split; [apply (map_throws_length _ _ _ Hcs) |].
    intros Hin. now apply fold_add_poisoned.
  - intros e He. now rewrite He.
  - intros nft Hnft' Hc. unfold item_count.
    rewrite (get_not_nullish nft "count" Hnft'). cbn [tbind].
    unfold or_else. rewrite Hc. reflexivity.
  - intros nft s Hc Hs. unfold item_count.
    assert (Hnn : is_nullish nft = false) by (destruct nft; try reflexivity; discriminate Hc).
    rewrite (get_not_nullish nft "count" Hnn). cbn [tbind].
    rewrite Hc. unfold or_else. cbn [truthy].
    destruct (String.eqb_spec s EmptyString); [contradiction | reflexivity].
  - intros nft Hnft' Hp. unfold item_count.
    rewrite (get_not_nullish nft "count" Hnft'). cbn [tbind].
    assert (Ht : truthy (opt_get nft "count") = true).
    { destruct (opt_get nft "count") as [ | | b | n | s | items | props];
        try reflexivity; discriminate Hp. }
    unfold or_else. rewrite Ht. unfold parseInt10.
    destruct (to_string P (opt_get nft "count")) as [e | s] eqn:E;
      cbn [tbind]; [now exists e |].
    assert (Hyes : printable (opt_get nft "count") = true)
      by (apply (to_string_ok_iff P); now exists s).
    rewrite Hyes in Hp. discriminate Hp.
Qed.

Lemma nft_count_sum_or_NaN_witness :
  count (getNftHoldings_of Demo.demo_platform
           (Demo.replied 200
              (JObj [("non_fungible_tokens",
                      JObj [Demo.collection "SP1.robots" "robot" "4";
                            Demo.collection "SP2.monkeys" "monkey" "many";
                            Demo.collection "SP3.punks" "punk" "1"])])))
  = NaN
  /\ count (getNftHoldings_of Demo.demo_platform
              (Demo.replied 200 Demo.balances_payload)) = 42%float
  /\ count (getNftHoldings_of Demo.demo_platform
              (Demo.replied 200
                 (JObj [("non_fungible_tokens",
                         JObj [Demo.collection "SP1.a" "a" "9007199254740992";
                               Demo.collection "SP2.b" "b" "1";
                               Demo.collection "SP3.c" "c" "1"])])))
     = 9007199254740992%float.
Proof.
  split; [| split].
  - destruct (nft_count_sum_or_NaN Demo.demo_platform
                {| status := 200;
                   json := inr (JObj [("non_fungible_tokens",
                                      JObj [Demo.collection "SP1.robots" "robot" "4";
                                            Demo.collection "SP2.monkeys" "monkey" "many";
                                            Demo.collection "SP3.punks" "punk" "1"])]);
                   arrayBuffer := inr [] |}
                _ _ eq_refl eq_refl eq_refl)
      as (Hsum & _).
    destruct (Hsum [4; NaN; 1]%float eq_refl) as (_ & _ & Hnan).
    apply Hnan. right. now left.
  - destruct (nft_count_sum_or_NaN Demo.demo_platform
                {| status := 200; json := inr Demo.balances_payload;
                   arrayBuffer := inr [] |}
                _ _ eq_refl eq_refl eq_refl)
      as (Hsum & _).
    destruct (Hsum [4; 2; 1; 10; 3; 20; 2]%float eq_refl) as (Hcount & _).
    unfold Demo.replied. rewrite Hcount. vm_compute. reflexivity.
  - destruct (nft_count_sum_or_NaN Demo.demo_platform
                {| status := 200;
                   json := inr (JObj [("non_fungible_tokens",
                                      JObj [Demo.collection "SP1.a" "a" "9007199254740992";
                                            Demo.collection "SP2.b" "b" "1";
                                            Demo.collection "SP3.c" "c" "1"])]);
                   arrayBuffer := inr [] |}
                _ _ eq_refl eq_refl eq_refl)
      as (Hsum & _).
    destruct (Hsum [9007199254740992; 1; 1]%float eq_refl) as (Hcount & _).
    unfold Demo.replied. rewrite Hcount. vm_compute. reflexivity.
Defined.

(** ** The STX balance at the edges *)

(** X18.  For a 2xx payload that is not null, [getStxBalance] formats zero
    when [stx] or its [balance] is missing (or falsy), and falls back to
    the failure default ["0"], unformatted, when [BigInt] rejects the
    balance. *)
Theorem stx_balance_edges (P : Platform) (res : HttpResponse) (data : JsVal) :
  res_ok res = true ->
  json res = inr data ->
  is_nullish data = false ->
  (truthy (opt_get (opt_get data "stx") "balance") = false ->
   getStxBalance_of P (Fulfilled res)
   = match BigInt P (JStr "0") with
     | inr zero => microToFixed2 P zero
     | inl _ => "0"
     end)
  /\ (forall e, BigInt P (or_else (opt_get (opt_get data "stx") "balance")
                                  (JStr "0")) = inl e ->
                getStxBalance_of P (Fulfilled res) = "0")
  /\ (forall z, BigInt P (or_else (opt_get (opt_get data "stx") "balance")
                                  (JStr "0")) = inr z ->
                getStxBalance_of P (Fulfilled res) = microToFixed2 P z).
Proof.
  intros Hok Hjson Hdata.
  assert (E : getStxBalance_of P (Fulfilled res)
              = try_catch
                  (balance <~ BigInt P (or_else (opt_get (opt_get data "stx") "balance")
                                                (JStr "0")) ;;
                   ok (microToFixed2 P balance))%throws
                  (fun _ => "0")).
  { unfold getStxBalance_of. js_step. rewrite Hok, Hjson. js_step.
    now rewrite (get_not_nullish data "stx" Hdata). }
  rewrite E. split; [| split].
  - intros Hfalsy. unfold or_else. rewrite Hfalsy.
    now destruct (BigInt P (JStr "0")).
  - intros e He. now rewrite He.
  - intros z Hz. now rewrite Hz.
Qed.

Lemma stx_balance_edges_witness :
  getStxBalance_of Demo.demo_platform
    (Demo.replied 200 (JObj [("stx", JObj [("locked", JStr "0")])]))
  = "0.00"
  /\ getStxBalance_of Demo.demo_platform
       (Demo.replied 200 (JObj [("stx", JObj [("balance", JStr "12.5")])]))
     = "0".
Proof.
  split.
  - destruct (stx_balance_edges Demo.demo_platform
                {| status := 200;
                   json := inr (JObj [("stx", JObj [("locked", JStr "0")])]);
                   arrayBuffer := inr [] |} _ eq_refl eq_refl eq_refl)
      as (Hmissing & _).
    exact (Hmissing eq_refl).
  - destruct (stx_balance_edges Demo.demo_platform
                {| status := 200;
                   json := inr (JObj [("stx", JObj [("balance", JStr "12.5")])]);
                   arrayBuffer := inr [] |} _ eq_refl eq_refl eq_refl)
      as (_ & Hthrow & _).
    exact (Hthrow _ eq_refl).
Defined.
